(** * Employee management service: the store and its request handlers

    A shallow embedding of [server.js] (the Express application) and of
    [dataAccess.js] (the standalone data-access module).  Both run
    parameterized SQL statements against an in-memory SQLite database with
    the two tables

      employees (id INTEGER PRIMARY KEY AUTOINCREMENT, name TEXT, role TEXT, status TEXT)
      roles     (name TEXT PRIMARY KEY)

    The database is modelled as explicit state: every statement is a
    function on [store], every handler a function from the store and the
    request's inputs to the new store and the HTTP response. *)

From Stdlib Require Import ZArith List String Ascii Bool Lia Sorted.
Import ListNotations.
Local Open Scope string_scope.
Local Open Scope Z_scope.

(** ** JavaScript values *)

(** The values a field of a JSON request body, or a query parameter, takes
    in this service: absent ([undefined]), [null], or a string.  The data
    model has string fields only; numbers, booleans and nested values are
    outside the model. *)
Inductive jsval : Type :=
| JUndefined
| JNull
| JStr (s : string).

(** [!v]: [undefined], [null] and the empty string are falsy. *)
Definition falsy (v : jsval) : bool :=
  match v with
  | JUndefined => true
  | JNull => true
  | JStr s => String.eqb s ""
  end.

(** [`${v}`]: the string a template literal interpolates. *)
Definition template (v : jsval) : string :=
  match v with
  | JUndefined => "undefined"
  | JNull => "null"
  | JStr s => s
  end.

(** A JSON object ([req.body], [req.query]) as the list of its properties. *)
Definition object : Type := list (string * jsval).

(** [o.k], as destructuring [const { k } = o] reads it: [undefined] when the
    object has no such property. *)
Definition prop (o : object) (k : string) : jsval :=
  match find (fun kv => String.eqb (fst kv) k) o with
  | Some kv => snd kv
  | None => JUndefined
  end.

(** ** SQL values and the two tables *)

(** The content of a TEXT column: [None] is SQL NULL. *)
Definition sqltext : Type := option string.

(** The value bound to a [?] placeholder from a JavaScript value: a string
    binds as TEXT, [null] as NULL, and [undefined] leaves the placeholder
    unbound, which SQLite reads as NULL. *)
Definition bind (v : jsval) : sqltext :=
  match v with
  | JUndefined => None
  | JNull => None
  | JStr s => Some s
  end.

Record employee : Type := mkEmployee {
  emp_id : Z;
  emp_name : sqltext;
  emp_role : sqltext;
  emp_status : sqltext
}.

(** The database: the rows of [employees] in rowid order, the rows of
    [roles], and the counter that AUTOINCREMENT keeps for [employees] in
    [sqlite_sequence] (the largest rowid ever assigned, 0 at first). *)
Record store : Type := mkStore {
  employees : list employee;
  roles : list sqltext;
  sequence : Z
}.

(** The database after the two CREATE TABLE statements. *)
Definition empty_store : store := mkStore [] [] 0.

(** [a = b] in a WHERE or ON clause over TEXT values: true only for two
    non-NULL, byte-equal strings. *)
Definition text_eq (a b : sqltext) : bool :=
  match a, b with
  | Some x, Some y => String.eqb x y
  | _, _ => false
  end.

(** *** LIKE *)

(** Strings are the UTF-8 bytes of the JavaScript strings.  SQLite reads
    both operands of LIKE as C strings, up to their first NUL byte, and
    character by character: a byte from 0xC0 on opens a character that runs
    through the continuation bytes (0x80 to 0xBF) behind it, any other byte
    is a character of its own. *)
Fixpoint c_string (s : string) : string :=
  match s with
  | EmptyString => EmptyString
  | String c s' =>
      if Ascii.eqb c zero then EmptyString else String c (c_string s')
  end.

Definition is_continuation (c : ascii) : bool :=
  N.leb 128 (N_of_ascii c) && N.ltb (N_of_ascii c) 192.

Definition is_lead (c : ascii) : bool := N.leb 192 (N_of_ascii c).

Fixpoint drop_continuation (s : string) : string :=
  match s with
  | EmptyString => EmptyString
  | String c s' => if is_continuation c then drop_continuation s' else s
  end.

(** What is left of a string behind the character that its byte [d]
    opens. *)
Definition after_char (d : ascii) (s' : string) : string :=
  if is_lead d then drop_continuation s' else s'.

(** SQLite's LIKE folds the case of the 26 ASCII letters. *)
Definition lower (c : ascii) : ascii :=
  let n := N_of_ascii c in
  if (N.leb 65 n && N.leb n 90)%bool then ascii_of_N (n + 32) else c.

Definition char_like (c d : ascii) : bool :=
  Ascii.eqb (lower c) (lower d).

(** [%]: the rest of the pattern, [k], matches the string from the start
    of one of its characters on, or from its end.  [wide] says that the
    bytes read so far end inside a multi-byte character. *)
Fixpoint like_any (k : string -> bool) (wide : bool) (t : string) : bool :=
  match t with
  | EmptyString => k EmptyString
  | String d t' =>
      if wide && is_continuation d then like_any k true t'
      else k (String d t') || like_any k (is_lead d) t'
  end.

(** [like_from p s]: the string [s] matches the pattern [p], where [%]
    stands for any run of characters, [_] for any one character, and every
    other character for itself up to ASCII case.  (There is no escape
    character: the statements use none.) *)
Fixpoint like_from (p s : string) : bool :=
  match p with
  | EmptyString =>
      match s with
      | EmptyString => true
      | String _ _ => false
      end
  | String c p' =>
      if Ascii.eqb c "%" then like_any (like_from p') false s
      else
        match s with
        | EmptyString => false
        | String d s' =>
            if Ascii.eqb c "_" then like_from p' (after_char d s')
            else char_like c d && like_from p' s'
        end
  end.

(** [s LIKE p]. *)
Definition like (p s : string) : bool :=
  like_from (c_string p) (c_string s).

(** [name LIKE ?] on a column value: NULL matches nothing. *)
Definition text_like (a : sqltext) (pattern : string) : bool :=
  match a with
  | Some s => like pattern s
  | None => false
  end.

(** *** Rowids *)

(** The largest rowid a table can hold. *)
Definition MAX_ROWID : Z := 9223372036854775807.

(** The longest pattern, in bytes, that SQLite's LIKE accepts. *)
Definition SQLITE_MAX_LIKE_PATTERN_LENGTH : Z := 50000.

(** The integer from which on a JavaScript number, a double, no longer
    holds every integer: 2^53. *)
Definition EXACT_LIMIT : Z := 9007199254740992.

(** The JavaScript number nearest to a non-negative integer: the integer
    itself below 2^53, and above it the nearest multiple of the spacing of
    doubles there, a tie going to the even mantissa. *)
Definition round_to_double (k : Z) : Z :=
  if k <? EXACT_LIMIT then k
  else
    let e := Z.log2 k - 52 in
    let q := Z.shiftr k e in
    let r := k - Z.shiftl q e in
    let half := Z.shiftl 1 (e - 1) in
    let up := (half <? r) || ((r =? half) && Z.odd q) in
    Z.shiftl (if up then q + 1 else q) e.

(** [this.lastID]: the rowid as a JavaScript number. *)
Definition js_number (k : Z) : Z :=
  if k <? 0 then - round_to_double (- k) else round_to_double k.

Definition max_rowid (es : list employee) : Z :=
  fold_right (fun e m => Z.max (emp_id e) m) 0 es.

(** A reading of a path segment as a rowid that agrees with SQLite on plain
    decimal numerals: an optional minus sign and one or more digits. *)
Definition digit (c : ascii) : option Z :=
  let n := Z.of_N (N_of_ascii c) in
  if (48 <=? n) && (n <=? 57) then Some (n - 48) else None.

Fixpoint digits (acc : Z) (s : string) : option Z :=
  match s with
  | EmptyString => Some acc
  | String c s' =>
      match digit c with
      | Some d => digits (10 * acc + d) s'
      | None => None
      end
  end.

Definition decimal_rowid (s : string) : option Z :=
  match s with
  | EmptyString => None
  | String "-" (String c r) => option_map Z.opp (digits 0 (String c r))
  | String _ _ => digits 0 s
  end.

(** ** The SQL statements *)

Section Statements.

(** SQLite compares the INTEGER PRIMARY KEY column with a TEXT operand by
    its numeric reading: [rowid_of_text p] is the integer the text [p]
    denotes for SQLite, if it denotes one.  The conversion belongs to the
    engine and is left open; [decimal_rowid] is an instance of it on plain
    numerals. *)
Variable rowid_of_text : string -> option Z.

(** [id = ?] with the text [p] bound. *)
Definition id_is (p : string) (e : employee) : bool :=
  match rowid_of_text p with
  | Some k => emp_id e =? k
  | None => false
  end.

(** INSERT INTO employees (name, role, status) VALUES (?, ?, ?).
    AUTOINCREMENT picks one more than the largest rowid ever assigned and
    records it; the statement fails once the largest rowid has been
    reached.  Returns [lastID] and the new database, or [None] on error. *)
Definition sql_insert_employee (n r s : sqltext) (st : store)
  : option (Z * store) :=
  let top := Z.max (max_rowid (employees st)) (sequence st) in
  if MAX_ROWID <=? top then None
  else
    let k := top + 1 in
    Some (k, mkStore (employees st ++ [mkEmployee k n r s]) (roles st) k).

(** SELECT * FROM employees WHERE id = ?, read with [db.get]: the first
    row of the result, if any. *)
Definition sql_select_employee (p : string) (st : store) : option employee :=
  find (id_is p) (employees st).

(** The number of rows a statement with WHERE id = ? touches:
    [this.changes]. *)
Definition changes (p : string) (st : store) : nat :=
  List.length (filter (id_is p) (employees st)).

(** UPDATE employees SET name = ?, role = ?, status = ? WHERE id = ? *)
Definition sql_update_employee (n r s : sqltext) (p : string) (st : store)
  : nat * store :=
  (changes p st,
   mkStore
     (map (fun e => if id_is p e then mkEmployee (emp_id e) n r s else e)
          (employees st))
     (roles st) (sequence st)).

(** DELETE FROM employees WHERE id = ? *)
Definition sql_delete_employee (p : string) (st : store) : nat * store :=
  (changes p st,
   mkStore (filter (fun e => negb (id_is p e)) (employees st))
           (roles st) (sequence st)).

(** UPDATE employees SET role = ? WHERE id = ? *)
Definition sql_update_role (r : sqltext) (p : string) (st : store)
  : nat * store :=
  (changes p st,
   mkStore
     (map (fun e =>
             if id_is p e
             then mkEmployee (emp_id e) (emp_name e) r (emp_status e)
             else e)
          (employees st))
     (roles st) (sequence st)).

(** UPDATE employees SET status = ? WHERE id = ? *)
Definition sql_update_status (s : sqltext) (p : string) (st : store)
  : nat * store :=
  (changes p st,
   mkStore
     (map (fun e =>
             if id_is p e
             then mkEmployee (emp_id e) (emp_name e) (emp_role e) s
             else e)
          (employees st))
     (roles st) (sequence st)).

(** The rows that SELECT * FROM employees WHERE name LIKE ? selects. *)
Definition sql_select_name_like (pattern : string) (st : store)
  : list employee :=
  filter (fun e => text_like (emp_name e) pattern) (employees st).

(** SQLite refuses a LIKE whose pattern is longer than its limit; the
    refusal comes when LIKE is evaluated, that is on the first row. *)
Definition like_too_complex (pattern : string) (st : store) : bool :=
  match employees st with
  | [] => false
  | _ :: _ => SQLITE_MAX_LIKE_PATTERN_LENGTH <? Z.of_nat (String.length pattern)
  end.

(** SELECT * FROM employees WHERE name LIKE ?, read with [db.all]: the
    rows, or [None] for the error. *)
Definition sql_all_name_like (pattern : string) (st : store)
  : option (list employee) :=
  if like_too_complex pattern st then None
  else Some (sql_select_name_like pattern st).

(** SELECT * FROM employees WHERE name = ? *)
Definition sql_select_name_eq (n : sqltext) (st : store) : list employee :=
  filter (fun e => text_eq (emp_name e) n) (employees st).

(** SELECT COUNT( * ) FROM employees, and FROM roles. *)
Definition sql_count_employees (st : store) : nat := List.length (employees st).
Definition sql_count_roles (st : store) : nat := List.length (roles st).

(** INSERT INTO roles (name) VALUES (?): fails when the name is already a
    row of the table (the primary key is unique). *)
Definition sql_insert_role (n : sqltext) (st : store) : option store :=
  if existsb (text_eq n) (roles st) then None
  else Some (mkStore (employees st) (roles st ++ [n]) (sequence st)).

(** DELETE FROM roles WHERE name = ? *)
Definition sql_delete_role (n : sqltext) (st : store) : nat * store :=
  (List.length (filter (text_eq n) (roles st)),
   mkStore (employees st)
           (filter (fun r => negb (text_eq n r)) (roles st))
           (sequence st)).

(** The [roleName] column of the LEFT JOIN roles ON employees.role =
    roles.name for one employee row: the matching role name, NULL when no
    role row matches. *)
Definition role_name (e : employee) (st : store) : sqltext :=
  match find (text_eq (emp_role e)) (roles st) with
  | Some r => r
  | None => None
  end.

(** SELECT employees.*, roles.name AS roleName FROM employees LEFT JOIN
    roles ON employees.role = roles.name WHERE employees.id = ?, read with
    [db.get]. *)
Definition sql_select_details (p : string) (st : store)
  : option (employee * sqltext) :=
  match find (id_is p) (employees st) with
  | Some e => Some (e, role_name e st)
  | None => None
  end.

End Statements.

(** ** HTTP responses *)

(** The JSON documents the handlers send. *)
Inductive json : Type :=
| Error (error : string)                              (* { error } *)
| Message (message : string)                          (* { message } *)
| Created (id : Z) (name role status : jsval)         (* { id: this.lastID, name, role, status } *)
| Updated (id : string) (name role status : jsval)    (* { id, name, role, status } *)
| Row (row : employee)                                (* a row of employees *)
| Rows (rows : list employee)                         (* an array of rows *)
| Details (row : employee) (roleName : sqltext)       (* a row with roleName *)
| TotalEmployees (totalEmployees : nat)
| TotalRoles (totalRoles : nat)
| RoleCreated (name : jsval)                          (* { name } *)
| NoRoute                                             (* no handler took the request *)
| BodyRefused                                         (* the body parser refused the request *)
| ApiDocs.                                            (* a page or file of the documentation *)

Record response : Type := mkResponse {
  code : Z;
  payload : json
}.

(** [res.status(c).json(j)], and [res.json(j)] with the default status. *)
Definition status_json (c : Z) (j : json) : response := mkResponse c j.
Definition send_json (j : json) : response := mkResponse 200 j.

(** ** The handlers of server.js *)

Module Server.
Section Handlers.

Variable rowid_of_text : string -> option Z.

(** POST /employees *)
Definition createEmployee (st : store) (body : object) : store * response :=
  let name := prop body "name" in
  let role := prop body "role" in
  let status := prop body "status" in
  if falsy name || falsy role || falsy status then
    (st, status_json 400 (Error "Missing required fields."))
  else
    match sql_insert_employee (bind name) (bind role) (bind status) st with
    | None => (st, status_json 500 (Error "Failed to create employee."))
    | Some (lastID, st') =>
        (st', status_json 201 (Created (js_number lastID) name role status))
    end.

(** GET /employees/:id *)
Definition getEmployeeById (st : store) (id : string) : store * response :=
  match sql_select_employee rowid_of_text id st with
  | None => (st, status_json 404 (Error "Employee not found."))
  | Some row => (st, send_json (Row row))
  end.

(** PUT /employees/:id *)
Definition updateEmployee (st : store) (id : string) (body : object)
  : store * response :=
  let name := prop body "name" in
  let role := prop body "role" in
  let status := prop body "status" in
  let (n, st') :=
    sql_update_employee rowid_of_text (bind name) (bind role) (bind status)
                        id st in
  if Nat.eqb n 0 then (st', status_json 404 (Error "Employee not found."))
  else (st', send_json (Updated id name role status)).

(** DELETE /employees/:id *)
Definition deleteEmployee (st : store) (id : string) : store * response :=
  let (n, st') := sql_delete_employee rowid_of_text id st in
  if Nat.eqb n 0 then (st', status_json 404 (Error "Employee not found."))
  else (st', send_json (Message "Employee deleted successfully.")).

(** POST /employees/:id/assign-role *)
Definition assignRoleToEmployee (st : store) (id : string) (body : object)
  : store * response :=
  let role := prop body "role" in
  let (n, st') := sql_update_role rowid_of_text (bind role) id st in
  if Nat.eqb n 0 then (st', status_json 404 (Error "Employee not found."))
  else (st', send_json (Message "Role assigned successfully.")).

(** GET /employees/search *)
Definition searchEmployeesByName (st : store) (query : object)
  : store * response :=
  let name := prop query "name" in
  match sql_all_name_like ("%" ++ template name ++ "%") st with
  | None => (st, status_json 500 (Error "Failed to search employees."))
  | Some rows =>
      if Nat.eqb (List.length rows) 0 then
        (st, status_json 404 (Error "Employee not found."))
      else (st, send_json (Rows rows))
  end.

(** GET /admin/total-employees *)
Definition getTotalEmployees (st : store) : store * response :=
  (st, send_json (TotalEmployees (sql_count_employees st))).

(** GET /admin/total-roles *)
Definition getTotalRoles (st : store) : store * response :=
  (st, send_json (TotalRoles (sql_count_roles st))).

(** POST /admin/create-role *)
Definition createRole (st : store) (body : object) : store * response :=
  let name := prop body "name" in
  if falsy name then (st, status_json 400 (Error "Missing role name."))
  else
    match sql_insert_role (bind name) st with
    | None => (st, status_json 500 (Error "Failed to create role."))
    | Some st' => (st', status_json 201 (RoleCreated name))
    end.

(** DELETE /admin/delete-role/:name *)
Definition deleteRole (st : store) (name : string) : store * response :=
  let (n, st') := sql_delete_role (Some name) st in
  if Nat.eqb n 0 then (st', status_json 404 (Error "Role not found."))
  else (st', send_json (Message "Role deleted successfully.")).

(** PUT /admin/update-status/:id *)
Definition updateEmployeeStatus (st : store) (id : string) (body : object)
  : store * response :=
  let status := prop body "status" in
  let (n, st') := sql_update_status rowid_of_text (bind status) id st in
  if Nat.eqb n 0 then (st', status_json 404 (Error "Employee not found."))
  else (st', send_json (Message "Employee status updated successfully.")).

(** GET /employees/:id/details *)
Definition getEmployeeDetails (st : store) (id : string) : store * response :=
  match sql_select_details rowid_of_text id st with
  | None => (st, status_json 404 (Error "Employee not found."))
  | Some (row, roleName) => (st, send_json (Details row roleName))
  end.

End Handlers.
End Server.

(** ** The standalone module dataAccess.js *)

Module DataAccess.

(** [searchEmployeesByName(name, callback)]: the rows handed to the
    callback.  The parameter is the template string [`${name}`] and the
    comparison is equality. *)
Definition searchEmployeesByName (st : store) (name : jsval) : list employee :=
  sql_select_name_eq (Some (template name)) st.

Section Functions.

Variable rowid_of_text : string -> option Z.

(** [createEmployee(name, role, status, callback)]: what [db.run] hands to
    the callback, [lastID] and the new database, or [None] for an error.
    No argument is checked. *)
Definition createEmployee (st : store) (name role status : jsval)
  : option (Z * store) :=
  sql_insert_employee (bind name) (bind role) (bind status) st.

(** [getEmployeeById(id, callback)]: the row handed to the callback.  An
    [id] that binds as NULL equals no rowid. *)
Definition getEmployeeById (st : store) (id : jsval) : option employee :=
  match bind id with
  | Some p => sql_select_employee rowid_of_text p st
  | None => None
  end.

(** [assignRoleToEmployee(id, role, callback)]: the parameters of
    UPDATE employees SET role = ? WHERE id = ? are [[id, role]], in this
    order, so [id] is bound to the new role and [role] to the rowid.
    Returns [this.changes] and the new database. *)
Definition assignRoleToEmployee (st : store) (id role : jsval)
  : nat * store :=
  match bind role with
  | Some p => sql_update_role rowid_of_text (bind id) p st
  | None => (0%nat, st)
  end.

End Functions.

End DataAccess.

(** ** Routing *)

Inductive method : Type := GET | POST | PUT | DELETE.

Definition method_eqb (a b : method) : bool :=
  match a, b with
  | GET, GET | POST, POST | PUT, PUT | DELETE, DELETE => true
  | _, _ => false
  end.

(** A request as the routes see it, once [bodyParser.json()] has let it
    through: its method, the segments of its path, the parsed query string
    and the parsed JSON body. *)
Record request : Type := mkRequest {
  req_method : method;
  req_path : list string;
  req_query : object;
  req_body : object
}.

(** A segment of a route's path: a literal or a named parameter. *)
Inductive segment : Type :=
| Lit (s : string)
| Param (name : string).

Fixpoint fold_case (s : string) : string :=
  match s with
  | EmptyString => EmptyString
  | String c s' => String (lower c) (fold_case s')
  end.

(** Express matches literals without regard to case, and a parameter
    against any non-empty segment.  The result is [req.params]. *)
Fixpoint match_path (pat : list segment) (path : list string)
  : option (list (string * string)) :=
  match pat, path with
  | [], [] => Some []
  | Lit l :: pat', x :: path' =>
      if String.eqb (fold_case l) (fold_case x) then match_path pat' path'
      else None
  | Param k :: pat', x :: path' =>
      if String.eqb x "" then None
      else option_map (cons (k, x)) (match_path pat' path')
  | _, _ => None
  end.

(** [req.params.k] of a route that declares [:k]. *)
Definition param (ps : list (string * string)) (k : string) : string :=
  match find (fun kv => String.eqb (fst kv) k) ps with
  | Some kv => snd kv
  | None => ""
  end.

Definition handler : Type :=
  store -> list (string * string) -> request -> store * response.

Section Application.

Variable rowid_of_text : string -> option Z.

(** The twelve routes in the order server.js registers them.  (The
    documentation mounted behind them at /api-docs and the body parser in
    front of them are part of [app], below.) *)
Definition routes : list (method * list segment * handler) :=
  [ (POST, [Lit "employees"],
     fun st _ rq => Server.createEmployee st (req_body rq));
    (GET, [Lit "employees"; Param "id"],
     fun st ps _ => Server.getEmployeeById rowid_of_text st (param ps "id"));
    (PUT, [Lit "employees"; Param "id"],
     fun st ps rq =>
       Server.updateEmployee rowid_of_text st (param ps "id") (req_body rq));
    (DELETE, [Lit "employees"; Param "id"],
     fun st ps _ => Server.deleteEmployee rowid_of_text st (param ps "id"));
    (POST, [Lit "employees"; Param "id"; Lit "assign-role"],
     fun st ps rq =>
       Server.assignRoleToEmployee rowid_of_text st (param ps "id")
                                   (req_body rq));
    (GET, [Lit "employees"; Lit "search"],
     fun st _ rq => Server.searchEmployeesByName st (req_query rq));
    (GET, [Lit "admin"; Lit "total-employees"],
     fun st _ _ => Server.getTotalEmployees st);
    (GET, [Lit "admin"; Lit "total-roles"],
     fun st _ _ => Server.getTotalRoles st);
    (POST, [Lit "admin"; Lit "create-role"],
     fun st _ rq => Server.createRole st (req_body rq));
    (DELETE, [Lit "admin"; Lit "delete-role"; Param "name"],
     fun st ps _ => Server.deleteRole st (param ps "name"));
    (PUT, [Lit "admin"; Lit "update-status"; Param "id"],
     fun st ps rq =>
       Server.updateEmployeeStatus rowid_of_text st (param ps "id")
                                   (req_body rq));
    (GET, [Lit "employees"; Param "id"; Lit "details"],
     fun st ps _ =>
       Server.getEmployeeDetails rowid_of_text st (param ps "id")) ].

(** The first route whose method and path match takes the request; every
    handler answers, so no later route is tried. *)
Fixpoint dispatch (rs : list (method * list segment * handler))
         (st : store) (rq : request) : store * response :=
  match rs with
  | [] => (st, status_json 404 NoRoute)
  | (m, pat, h) :: rs' =>
      if method_eqb m (req_method rq) then
        match match_path pat (req_path rq) with
        | Some ps => h st ps rq
        | None => dispatch rs' st rq
        end
      else dispatch rs' st rq
  end.

(** The routing of a request among the twelve routes; [NoRoute] when none
    of them takes it. *)
Definition serve (st : store) (rq : request) : store * response :=
  dispatch routes st rq.

(** A run of the service: the requests are served one after the other.
    (A request that the body parser refuses, or that the documentation
    answers, leaves the database alone and takes no part in a run.) *)
Fixpoint run (st : store) (rqs : list request) : store * list response :=
  match rqs with
  | [] => (st, [])
  | rq :: rqs' =>
      let (st1, r) := serve st rq in
      let (st2, rs) := run st1 rqs' in
      (st2, r :: rs)
  end.

End Application.

(** The ids the service assigned in a run, oldest first: the [id] of every
    201 response of POST /employees. *)
Fixpoint created_ids (rs : list response) : list Z :=
  match rs with
  | [] => []
  | r :: rs' =>
      match payload r with
      | Created k _ _ _ => k :: created_ids rs'
      | _ => created_ids rs'
      end
  end.

(** Requests as a client writes them. *)
Definition employee_body (name role status : string) : object :=
  [("name", JStr name); ("role", JStr role); ("status", JStr status)].

Definition post_employee (name role status : string) : request :=
  mkRequest POST ["employees"] [] (employee_body name role status).

Definition get_employee (id : string) : request :=
  mkRequest GET ["employees"; id] [] [].

Definition put_employee (id : string) (body : object) : request :=
  mkRequest PUT ["employees"; id] [] body.

Definition delete_employee (id : string) : request :=
  mkRequest DELETE ["employees"; id] [] [].

Definition get_search (name : string) : request :=
  mkRequest GET ["employees"; "search"] [("name", JStr name)] [].

Definition post_role (name : string) : request :=
  mkRequest POST ["admin"; "create-role"] [] [("name", JStr name)].

Definition delete_role (name : string) : request :=
  mkRequest DELETE ["admin"; "delete-role"; name] [] [].

(** ** The whole application *)

(** What [bodyParser.json()], which server.js installs before every route,
    makes of the body of a request: the parsed object (the empty object
    when the request carries no JSON), or the status of the error it
    raises, with which Express answers without trying any route. *)
Inductive parsed_body : Type :=
| Parsed (body : object)
| Refused (status : Z).

(** A request as it comes in. *)
Record incoming : Type := mkIncoming {
  in_method : method;
  in_path : list string;
  in_query : object;
  in_body : parsed_body
}.

(** Some route of the list takes a request of this method and path. *)
Definition matched (rs : list (method * list segment * handler))
           (m : method) (path : list string) : bool :=
  existsb (fun route : method * list segment * handler =>
             method_eqb (fst (fst route)) m &&
             match match_path (snd (fst route)) path with
             | Some _ => true
             | None => false
             end) rs.

(** The mount point of [app.use('/api-docs', ...)]: every path below it,
    for every method. *)
Definition under_api_docs (path : list string) : bool :=
  match path with
  | x :: _ => String.eqb (fold_case "api-docs") (fold_case x)
  | [] => false
  end.

Section Whole.

Variable rowid_of_text : string -> option Z.

(** The status with which the documentation pages answer belongs to
    swagger-ui-express and is left open. *)
Variable docs_status : incoming -> Z.

(** The application: the body parser first, then the twelve routes in
    their order, then the documentation mounted behind them, then Express's
    own 404. *)
Definition app (st : store) (i : incoming) : store * response :=
  match in_body i with
  | Refused status => (st, status_json status BodyRefused)
  | Parsed body =>
      if matched (routes rowid_of_text) (in_method i) (in_path i) then
        serve rowid_of_text st
              (mkRequest (in_method i) (in_path i) (in_query i) body)
      else if under_api_docs (in_path i) then
        (st, status_json (docs_status i) ApiDocs)
      else (st, status_json 404 NoRoute)
  end.

End Whole.

(** ** Vocabulary of the specification *)

Section Vocabulary.

Variable rowid_of_text : string -> option Z.

(** The id [p] of a request names a row of [employees]. *)
Definition present (p : string) (st : store) : Prop :=
  exists e, In e (employees st) /\ rowid_of_text p = Some (emp_id e).

(** The id [p] names no row of [employees]. *)
Definition absent (p : string) (st : store) : Prop :=
  forall e, In e (employees st) -> rowid_of_text p <> Some (emp_id e).

End Vocabulary.

(** The answer of every employee handler that finds no row. *)
Definition not_found : response :=
  status_json 404 (Error "Employee not found.").

(** A field of a body is missing or empty. *)
Definition missing_or_empty (v : jsval) : Prop :=
  v = JUndefined \/ v = JStr "".

(** No row of [roles] carries the name a role field holds. *)
Definition dangling (r : sqltext) (st : store) : Prop :=
  forall n, r = Some n -> ~ In (Some n) (roles st).

(** What one request may do to the AUTOINCREMENT counter: it never goes
    down and rises by one at most once it is the largest rowid of the
    table, and a 201 response of POST /employees comes with a new, higher
    and positive counter, whose JavaScript number is the id it carries. *)
Definition step_ok (st : store) (out : store * response) : Prop :=
  sequence st <= sequence (fst out) <=
    Z.max (max_rowid (employees st)) (sequence st) + 1 /\
  forall k n r s,
    payload (snd out) = Created k n r s ->
    sequence st < sequence (fst out) /\
    0 < sequence (fst out) /\
    k = js_number (sequence (fst out)).

(** A string without NUL byte. *)
Fixpoint nul_free (s : string) : bool :=
  match s with
  | EmptyString => true
  | String c s' => negb (Ascii.eqb c zero) && nul_free s'
  end.

(** A string that does not begin in the middle of a character. *)
Definition char_start (s : string) : bool :=
  match s with
  | EmptyString => true
  | String d _ => negb (is_continuation d)
  end.

(** The rows of [employees] whose name is not NULL. *)
Definition has_name (e : employee) : bool :=
  match emp_name e with
  | Some _ => true
  | None => false
  end.

Definition named (st : store) : list employee :=
  filter has_name (employees st).

(** The result set a response carries: the rows of a 200 answer of the
    search, none otherwise. *)
Definition result_set (r : response) : list employee :=
  match payload r with
  | Rows rows => rows
  | _ => []
  end.

(** The shape of every database the service builds: the rows of
    [employees] lie in strictly increasing order of id, the ids are positive
    and none is above the AUTOINCREMENT counter, the counter has not passed
    the largest rowid, and the role names are non-NULL, non-empty and
    pairwise distinct. *)
Definition well_formed (st : store) : Prop :=
  StronglySorted Z.lt (map emp_id (employees st)) /\
  Forall (fun e => 0 < emp_id e <= sequence st) (employees st) /\
  0 <= sequence st <= MAX_ROWID /\
  NoDup (roles st) /\
  Forall (fun r => exists s, r = Some s /\ s <> "") (roles st).

(** The status codes the handlers send. *)
Definition known_code (c : Z) : Prop :=
  c = 200 \/ c = 201 \/ c = 400 \/ c = 404 \/ c = 500.

(** What a request may do: it keeps the shape of the database, changes
    nothing when it answers with an error or is a GET, and answers with one
    of the five status codes. *)
Definition outcome_ok (rq : request) (st : store) (out : store * response)
  : Prop :=
  (well_formed st -> well_formed (fst out)) /\
  (400 <= code (snd out) -> fst out = st) /\
  (req_method rq = GET -> fst out = st) /\
  known_code (code (snd out)).

(** A store with the single employee Ana, as POST /employees leaves it. *)
Definition ana : employee :=
  mkEmployee 1 (Some "Ana") (Some "eng") (Some "active").

Definition ana_store : store := mkStore [ana] [] 1.

(** Two employees, the first with its three fields overwritten by NULL. *)
Definition bo : employee :=
  mkEmployee 2 (Some "Bo") (Some "eng") (Some "active").

Definition nameless_store : store :=
  mkStore [mkEmployee 1 None None None; bo] [] 2.

(** Ana's store with a role table: one that holds her role, one that does
    not. *)
Definition eng_store : store := mkStore [ana] [Some "eng"] 1.

Definition ops_store : store := mkStore [ana] [Some "ops"] 1.

(** The scenario of the specification: two Creates, a Delete of the first
    employee, a GetById of it, and a third Create. *)
Definition scenario : list request :=
  [ post_employee "Ana" "eng" "active";
    post_employee "Bo" "eng" "active";
    delete_employee "1";
    get_employee "1";
    post_employee "Cy" "eng" "active" ].

(** A store whose counter has reached the largest rowid. *)
Definition full_store : store := mkStore [] [] MAX_ROWID.

(** * Properties *)

(** ** Lists of rows *)

Section Rows.

Context {A : Type}.
Variable f : A -> bool.

Lemma find_none_all_false (l : list A) :
  (forall x, In x l -> f x = false) -> find f l = None.
Proof.
  induction l as [|a l IH]; intros H; simpl; [reflexivity|].
  rewrite (H a (or_introl eq_refl)).
  apply IH. intros x Hx. apply H. right. exact Hx.
Qed.

Lemma filter_none (l : list A) :
  find f l = None -> filter f l = [].
Proof.
  induction l as [|a l IH]; simpl; [reflexivity|].
  destruct (f a); [discriminate|exact IH].
Qed.

Lemma filter_negb_none (l : list A) :
  find f l = None -> filter (fun x => negb (f x)) l = l.
Proof.
  induction l as [|a l IH]; simpl; [reflexivity|].
  destruct (f a); simpl; [discriminate|].
  intros H. now rewrite IH.
Qed.

Lemma map_if_none (g : A -> A) (l : list A) :
  find f l = None -> map (fun x => if f x then g x else x) l = l.
Proof.
  induction l as [|a l IH]; simpl; [reflexivity|].
  destruct (f a); [discriminate|].
  intros H. now rewrite IH.
Qed.

Lemma filter_some_length (l : list A) (x : A) :
  find f l = Some x -> List.length (filter f l) <> 0%nat.
Proof.
  induction l as [|a l IH]; simpl; [discriminate|].
  destruct (f a); simpl; [discriminate|exact IH].
Qed.

Lemma find_in_some (l : list A) (x : A) :
  In x l -> f x = true -> exists y, find f l = Some y.
Proof.
  induction l as [|a l IH]; simpl; [contradiction|].
  intros [->|Hin] Hx.
  - rewrite Hx. now exists x.
  - destruct (f a); [now exists a|auto].
Qed.

(** After [map]ping every row that satisfies [f] to [g] of it, the first
    such row is [g] of the first row that satisfied [f], as long as [g]
    keeps [f]. *)
Lemma find_map_if (g : A -> A) (l : list A) (x : A) :
  (forall y, f y = true -> f (g y) = true) ->
  find f l = Some x ->
  find f (map (fun y => if f y then g y else y) l) = Some (g x).
Proof.
  intros Hg.
  induction l as [|a l IH]; simpl; [discriminate|].
  destruct (f a) eqn:Ha.
  - intros [= ->]. now rewrite (Hg _ Ha).
  - rewrite Ha. exact IH.
Qed.

End Rows.

Lemma store_eta (st : store) :
  mkStore (employees st) (roles st) (sequence st) = st.
Proof. now destruct st. Qed.

(** ** LIKE patterns *)

Lemma append_empty (s : string) : (s ++ "")%string = s.
Proof. induction s as [|c s IH]; simpl; [reflexivity|now rewrite IH]. Qed.

(** A pattern that ends in [%] is matched wherever that [%] is reached. *)
Lemma like_any_last (k : string -> bool) (t : string) :
  k "" = true -> forall wide, like_any k wide t = true.
Proof.
  intros Hk. induction t as [|d t IH]; intros wide; simpl; [exact Hk|].
  destruct (wide && is_continuation d); [apply IH|].
  rewrite IH. apply orb_true_r.
Qed.

Lemma like_any_here (k : string -> bool) (wide : bool) (s : string) :
  char_start s = true -> k s = true -> like_any k wide s = true.
Proof.
  destruct s as [|d s]; simpl; [auto|].
  intros Hd Hk. apply negb_true_iff in Hd.
  now rewrite Hd, andb_false_r, Hk.
Qed.

Lemma like_any_first (k : string -> bool) (s : string) :
  k s = true -> like_any k false s = true.
Proof.
  destruct s as [|d s]; simpl; [auto|]. now intros ->.
Qed.

(** [%] may pass over any bytes that end where a character starts. *)
Lemma like_any_skip (k : string -> bool) (pre s : string) :
  char_start s = true -> k s = true ->
  forall wide, like_any k wide (pre ++ s) = true.
Proof.
  intros Hs Hk. induction pre as [|b pre IH]; intros wide.
  - now apply like_any_here.
  - cbn [append like_any].
    destruct (wide && is_continuation b); [apply IH|].
    rewrite IH. apply orb_true_r.
Qed.

(** The pattern [%] matches every string. *)
Lemma like_percent (s : string) : like "%" s = true.
Proof.
  unfold like.
  change (like_any (like_from "") false (c_string s) = true).
  now apply like_any_last.
Qed.

(** So does [%%], the pattern the search builds from the empty name. *)
Lemma like_percent_percent (s : string) : like "%%" s = true.
Proof.
  unfold like.
  change (like_any (like_from "%") false (c_string s) = true).
  now apply like_any_last.
Qed.

Lemma lower_percent (c : ascii) : lower c = "%"%char -> c = "%"%char.
Proof.
  destruct c as [b0 b1 b2 b3 b4 b5 b6 b7].
  destruct b0, b1, b2, b3, b4, b5, b6, b7; vm_compute;
    intros H; try reflexivity; discriminate H.
Qed.

Lemma lower_underscore (c : ascii) : lower c = "_"%char -> c = "_"%char.
Proof.
  destruct c as [b0 b1 b2 b3 b4 b5 b6 b7].
  destruct b0, b1, b2, b3, b4, b5, b6, b7; vm_compute;
    intros H; try reflexivity; discriminate H.
Qed.

(** A pattern matches, up to the case of ASCII letters, itself and what
    its rest matches behind it: its wildcards match themselves too. *)
Lemma like_from_prefix (q q' rest post : string) :
  fold_case q = fold_case q' ->
  like_from rest post = true ->
  like_from (q ++ rest) (q' ++ post) = true.
Proof.
  intros Hq Hrest. revert q' Hq.
  induction q as [|c q IH]; intros [|c' q']; simpl fold_case;
    try discriminate.
  - intros _. exact Hrest.
  - intros [= Hc Hq]. specialize (IH q' Hq). cbn [append like_from].
    destruct (Ascii.eqb c "%") eqn:Hp.
    + apply Ascii.eqb_eq in Hp. subst c.
      symmetry in Hc. apply lower_percent in Hc. subst c'.
      cbn [like_any andb]. change (is_lead "%") with false.
      rewrite (like_any_first _ _ IH). apply orb_true_r.
    + destruct (Ascii.eqb c "_") eqn:Hu.
      * apply Ascii.eqb_eq in Hu. subst c.
        symmetry in Hc. apply lower_underscore in Hc. subst c'.
        exact IH.
      * unfold char_like. now rewrite Hc, Ascii.eqb_refl, IH.
Qed.

Lemma c_string_nul_free (s t : string) :
  nul_free s = true -> c_string (s ++ t) = (s ++ c_string t)%string.
Proof.
  induction s as [|c s IH]; simpl; [reflexivity|].
  intros H. apply andb_true_iff in H. destruct H as [Hc Hs].
  apply negb_true_iff in Hc. now rewrite Hc, IH.
Qed.

(** An appended [%] is either cut off with the rest behind a NUL, or
    stays. *)
Lemma c_string_percent (t : string) :
  c_string (t ++ "%") = c_string t \/
  c_string (t ++ "%") = (c_string t ++ "%")%string.
Proof.
  induction t as [|c t IH]; simpl; [now right|].
  destruct (Ascii.eqb c zero); [now left|].
  destruct IH as [-> | ->]; [now left|now right].
Qed.

Lemma char_start_c_string (s : string) :
  char_start s = true -> char_start (c_string s) = true.
Proof.
  destruct s as [|c s]; simpl; [reflexivity|].
  now destruct (Ascii.eqb c zero).
Qed.

(** The search pattern built from a name matches that name. *)
Lemma like_self (t : string) : like ("%" ++ t ++ "%") t = true.
Proof.
  unfold like.
  change (like_any (like_from (c_string (t ++ "%"))) false (c_string t)
          = true).
  apply like_any_first.
  destruct (c_string_percent t) as [-> | ->].
  - pose proof (like_from_prefix (c_string t) (c_string t) "" ""
                  eq_refl eq_refl) as H.
    now rewrite !append_empty in H.
  - pose proof (like_from_prefix (c_string t) (c_string t) "%" ""
                  eq_refl eq_refl) as H.
    now rewrite append_empty in H.
Qed.

(** The search pattern built from [q] matches every string that holds
    [q], in any letter case, from the start of a character on and before
    any NUL. *)
Lemma like_substring (q q' pre post : string) :
  fold_case q = fold_case q' ->
  nul_free q = true -> nul_free pre = true -> nul_free q' = true ->
  char_start (q' ++ post) = true ->
  like ("%" ++ q ++ "%") (pre ++ q' ++ post) = true.
Proof.
  intros Hq Hnq Hnpre Hnq' Hstart. unfold like.
  rewrite (c_string_nul_free pre _ Hnpre).
  change (like_any (like_from (c_string (q ++ "%"))) false
                   (pre ++ c_string (q' ++ post)) = true).
  rewrite (c_string_nul_free q _ Hnq).
  apply like_any_skip; [now apply char_start_c_string|].
  rewrite (c_string_nul_free q' _ Hnq').
  apply like_from_prefix; [exact Hq|].
  change (like_any (like_from "") false (c_string post) = true).
  now apply like_any_last.
Qed.

(** ** Rows named by an id *)

Section Lookup.

Variable rowid_of_text : string -> option Z.

Lemma absent_find (p : string) (st : store) :
  absent rowid_of_text p st ->
  find (id_is rowid_of_text p) (employees st) = None.
Proof.
  intros H. apply find_none_all_false. intros e He.
  unfold id_is. specialize (H e He).
  destruct (rowid_of_text p) as [k|]; [|reflexivity].
  apply Z.eqb_neq. congruence.
Qed.

Lemma find_absent (p : string) (st : store) :
  find (id_is rowid_of_text p) (employees st) = None ->
  absent rowid_of_text p st.
Proof.
  intros H e He Hp.
  apply (find_none _ _ H) in He.
  unfold id_is in He. rewrite Hp, Z.eqb_refl in He. discriminate.
Qed.

Lemma present_find (p : string) (st : store) :
  present rowid_of_text p st ->
  exists e, find (id_is rowid_of_text p) (employees st) = Some e /\
            In e (employees st) /\ rowid_of_text p = Some (emp_id e).
Proof.
  intros [e [He Hp]].
  destruct (find_in_some (id_is rowid_of_text p) (employees st) e He)
    as [y Hy].
  - unfold id_is. rewrite Hp. apply Z.eqb_refl.
  - exists y. split; [exact Hy|].
    apply find_some in Hy. destruct Hy as [Hin Hid]. split; [exact Hin|].
    unfold id_is in Hid. destruct (rowid_of_text p) as [k|]; [|discriminate].
    apply Z.eqb_eq in Hid. now subst.
Qed.

Lemma absent_changes (p : string) (st : store) :
  absent rowid_of_text p st -> changes rowid_of_text p st = 0%nat.
Proof.
  intros H. unfold changes.
  now rewrite (filter_none _ _ (absent_find p st H)).
Qed.

Lemma present_changes (p : string) (st : store) :
  present rowid_of_text p st ->
  Nat.eqb (changes rowid_of_text p st) 0 = false.
Proof.
  intros H. destruct (present_find p st H) as [e [He _]].
  apply Nat.eqb_neq. unfold changes.
  exact (filter_some_length _ _ _ He).
Qed.

End Lookup.

(** ** The handlers on ids *)

Section OnIds.

Variable rowid_of_text : string -> option Z.

Abbreviation getEmployeeById := (Server.getEmployeeById rowid_of_text).
Abbreviation updateEmployee := (Server.updateEmployee rowid_of_text).
Abbreviation deleteEmployee := (Server.deleteEmployee rowid_of_text).
Abbreviation assignRoleToEmployee := (Server.assignRoleToEmployee rowid_of_text).
Abbreviation updateEmployeeStatus := (Server.updateEmployeeStatus rowid_of_text).
Abbreviation getEmployeeDetails := (Server.getEmployeeDetails rowid_of_text).

(** C2.  For an id that names no row of [employees], each of GetById,
    Update, Delete, AssignRole, UpdateStatus and GetDetails answers 404
    ("Employee not found.") and leaves the store as it was. *)
Theorem absent_id_not_found (st : store) (id : string) (body : object) :
  absent rowid_of_text id st ->
  getEmployeeById st id = (st, not_found) /\
  updateEmployee st id body = (st, not_found) /\
  deleteEmployee st id = (st, not_found) /\
  assignRoleToEmployee st id body = (st, not_found) /\
  updateEmployeeStatus st id body = (st, not_found) /\
  getEmployeeDetails st id = (st, not_found).
Proof.
  intros H.
  pose proof (absent_find _ _ _ H) as Hfind.
  pose proof (absent_changes _ _ _ H) as Hch.
  unfold Server.getEmployeeById, Server.updateEmployee,
    Server.deleteEmployee, Server.assignRoleToEmployee,
    Server.updateEmployeeStatus, Server.getEmployeeDetails,
    sql_select_employee, sql_update_employee, sql_delete_employee,
    sql_update_role, sql_update_status, sql_select_details.
  rewrite Hfind, Hch. simpl.
  rewrite !(map_if_none _ _ _ Hfind), (filter_negb_none _ _ Hfind),
    store_eta.
  repeat split.
Qed.

(** The row an Update writes is the first row GetById finds afterwards,
    whatever the body holds. *)
Lemma update_then_select (st : store) (id : string) (body : object) :
  present rowid_of_text id st ->
  exists k,
    rowid_of_text id = Some k /\
    updateEmployee st id body =
      (snd (sql_update_employee rowid_of_text
              (bind (prop body "name")) (bind (prop body "role"))
              (bind (prop body "status")) id st),
       send_json (Updated id (prop body "name") (prop body "role")
                          (prop body "status"))) /\
    sql_select_employee rowid_of_text id (fst (updateEmployee st id body)) =
      Some (mkEmployee k (bind (prop body "name")) (bind (prop body "role"))
                       (bind (prop body "status"))).
Proof.
  intros H.
  pose proof (present_changes _ _ _ H) as Hch.
  destruct (present_find _ _ _ H) as [e [He [_ Hk]]].
  exists (emp_id e). split; [exact Hk|].
  unfold Server.updateEmployee, sql_update_employee. rewrite Hch.
  split; [reflexivity|].
  unfold sql_select_employee. simpl.
  apply (find_map_if (id_is rowid_of_text id)
           (fun e => mkEmployee (emp_id e) _ _ _)); [|exact He].
  intros y Hy. exact Hy.
Qed.

(** C4.  For an id that names a row, Update with the strings [name],
    [role] and [status] followed by GetById answers 200 with a record of
    that id whose three fields are exactly these strings: nothing of the
    earlier version is kept. *)
Theorem update_then_get (st : store) (id : string) (body : object)
        (name role status : string) :
  present rowid_of_text id st ->
  prop body "name" = JStr name ->
  prop body "role" = JStr role ->
  prop body "status" = JStr status ->
  exists k,
    rowid_of_text id = Some k /\
    snd (getEmployeeById (fst (updateEmployee st id body)) id) =
      send_json (Row (mkEmployee k (Some name) (Some role) (Some status))).
Proof.
  intros H Hn Hr Hs.
  destruct (update_then_select st id body H) as [k [Hk [_ Hsel]]].
  exists k. split; [exact Hk|].
  unfold Server.getEmployeeById. rewrite Hsel, Hn, Hr, Hs. reflexivity.
Qed.

(** C10.  For an id that names a row, Update checks nothing about the
    body: it answers 200, never 400, and the row then holds NULL in the
    column of every field the body lacks. *)
Theorem update_without_validation (st : store) (id : string) (body : object) :
  present rowid_of_text id st ->
  exists row,
    snd (updateEmployee st id body) =
      send_json (Updated id (prop body "name") (prop body "role")
                         (prop body "status")) /\
    code (snd (updateEmployee st id body)) <> 400 /\
    sql_select_employee rowid_of_text id (fst (updateEmployee st id body)) =
      Some row /\
    rowid_of_text id = Some (emp_id row) /\
    (prop body "name" = JUndefined -> emp_name row = None) /\
    (prop body "role" = JUndefined -> emp_role row = None) /\
    (prop body "status" = JUndefined -> emp_status row = None).
Proof.
  intros H.
  destruct (update_then_select st id body H) as [k [Hk [Hr Hsel]]].
  exists (mkEmployee k (bind (prop body "name")) (bind (prop body "role"))
                     (bind (prop body "status"))).
  split; [now rewrite Hr|].
  split; [rewrite Hr; simpl; discriminate|].
  split; [exact Hsel|].
  split; [exact Hk|].
  simpl. repeat split; intros ->; reflexivity.
Qed.

(** C5.  For an id that names a row whose role is no row of [roles],
    GetDetails answers 200 with the employee record and [roleName] NULL;
    it answers 404 only for an id that names no row. *)
Theorem details_of_dangling_role (st : store) (id : string) :
  (present rowid_of_text id st ->
   (forall e,
       In e (employees st) -> rowid_of_text id = Some (emp_id e) ->
       dangling (emp_role e) st) ->
   exists e,
     In e (employees st) /\ rowid_of_text id = Some (emp_id e) /\
     getEmployeeDetails st id = (st, send_json (Details e None))) /\
  (code (snd (getEmployeeDetails st id)) = 404 <->
   absent rowid_of_text id st).
Proof.
  unfold Server.getEmployeeDetails, sql_select_details.
  split; [|split].
  - intros H Hd.
    destruct (present_find _ _ _ H) as [e [He [Hin Hk]]].
    exists e. split; [exact Hin|]. split; [exact Hk|].
    rewrite He. unfold role_name.
    destruct (find (text_eq (emp_role e)) (roles st)) as [r|] eqn:Hr;
      [|reflexivity].
    apply find_some in Hr. destruct Hr as [Hr Heq].
    exfalso. unfold text_eq in Heq.
    destruct (emp_role e) as [x|] eqn:Hx, r as [y|]; try discriminate.
    apply String.eqb_eq in Heq. subst y.
    apply (Hd e Hin Hk x); [exact Hx|exact Hr].
  - destruct (find (id_is rowid_of_text id) (employees st)) eqn:Hf.
    + simpl. discriminate.
    + intros _. now apply find_absent.
  - intros H. now rewrite (absent_find _ _ _ H).
Qed.

End OnIds.

(** ** Create *)

Lemma missing_or_empty_falsy (v : jsval) : missing_or_empty v -> falsy v = true.
Proof. intros [-> | ->]; reflexivity. Qed.

(** C6.  A Create whose body lacks one of name, role and status, or holds
    the empty string for it, is answered 400 ("Missing required fields.")
    and inserts nothing: the store is the one before. *)
Theorem create_rejects_missing_field (st : store) (body : object) :
  missing_or_empty (prop body "name") \/
  missing_or_empty (prop body "role") \/
  missing_or_empty (prop body "status") ->
  Server.createEmployee st body =
    (st, status_json 400 (Error "Missing required fields.")).
Proof.
  intros H. unfold Server.createEmployee.
  destruct H as [H | [H | H]]; apply missing_or_empty_falsy in H; rewrite H.
  - reflexivity.
  - now rewrite orb_true_r.
  - now rewrite orb_true_r.
Qed.

(** ** Roles *)

(** C7.  Deleting a role, whether the role exists or not, leaves the table
    [employees] and its counter as they were; a row whose role is the
    deleted name stays, with that role. *)
Theorem delete_role_keeps_employees (st : store) (name : string) :
  employees (fst (Server.deleteRole st name)) = employees st /\
  sequence (fst (Server.deleteRole st name)) = sequence st /\
  forall e, In e (employees st) -> emp_role e = Some name ->
            In e (employees (fst (Server.deleteRole st name))).
Proof.
  unfold Server.deleteRole, sql_delete_role.
  destruct (Nat.eqb _ 0); simpl; auto.
Qed.

(** ** Search *)

Lemma like_too_complex_false (pattern : string) (st : store) :
  employees st = [] \/
  Z.of_nat (String.length pattern) <= SQLITE_MAX_LIKE_PATTERN_LENGTH ->
  like_too_complex pattern st = false.
Proof.
  unfold like_too_complex. intros [-> | H]; [reflexivity|].
  destruct (employees st); [reflexivity|]. now apply Z.ltb_ge.
Qed.


Lemma search_rows (st : store) (query : object) :
  Server.searchEmployeesByName st query =
    let pattern := ("%" ++ template (prop query "name") ++ "%")%string in
    if like_too_complex pattern st then
      (st, status_json 500 (Error "Failed to search employees."))
    else
      match sql_select_name_like pattern st with
      | [] => (st, status_json 404 (Error "Employee not found."))
      | _ :: _ => (st, send_json (Rows (sql_select_name_like pattern st)))
      end.
Proof.
  unfold Server.searchEmployeesByName, sql_all_name_like. cbv zeta.
  destruct (like_too_complex _ st); [reflexivity|].
  now destruct (sql_select_name_like _ st).
Qed.



Lemma named_like_all (st : store) :
  sql_select_name_like "%%" st = named st.
Proof.
  unfold sql_select_name_like, named.
  apply filter_ext. intros e. unfold text_like, has_name.
  destruct (emp_name e) as [s|]; [apply like_percent_percent|reflexivity].
Qed.

(** C8, as the handler has it.  With the empty string as query, the search
    answers 200 with every employee whose name is not NULL, in table order,
    when there is one, and 404 when there is none; so it returns every
    employee of a store that is not empty and holds no NULL name. *)
Theorem search_empty_name (st : store) (query : object) :
  prop query "name" = JStr "" ->
  (named st = [] ->
   Server.searchEmployeesByName st query =
     (st, status_json 404 (Error "Employee not found."))) /\
  (named st <> [] ->
   Server.searchEmployeesByName st query = (st, send_json (Rows (named st)))) /\
  (employees st <> [] ->
   (forall e, In e (employees st) -> emp_name e <> None) ->
   Server.searchEmployeesByName st query =
     (st, send_json (Rows (employees st)))).
Proof.
  intros Hq.
  assert (Hs : Server.searchEmployeesByName st query =
               match named st with
               | [] => (st, status_json 404 (Error "Employee not found."))
               | _ :: _ => (st, send_json (Rows (named st)))
               end).
  { rewrite search_rows, Hq. simpl template.
    change ("%" ++ "" ++ "%")%string with "%%".
    cbv zeta. rewrite like_too_complex_false, named_like_all;
      [reflexivity|].
    right. vm_compute. discriminate. }
  split; [|split].
  - intros Hn. now rewrite Hs, Hn.
  - intros Hn. rewrite Hs. now destruct (named st).
  - intros Hne Hall.
    assert (Hn : named st = employees st).
    { unfold named. apply forallb_filter_id. apply forallb_forall.
      intros e He. unfold has_name. specialize (Hall e He).
      now destruct (emp_name e). }
    rewrite Hs, Hn. now destruct (employees st).
Qed.

(** C8 fails as stated: on the empty store the answer is the 404 error, not
    200 with the empty array; and in the store that two Creates and an
    Update with an empty body leave, the search omits the employee whose
    name the Update has set to NULL. *)
Lemma search_empty_name_misses :
  Server.searchEmployeesByName empty_store [("name", JStr "")] =
    (empty_store, status_json 404 (Error "Employee not found.")) /\
  Server.searchEmployeesByName empty_store [("name", JStr "")] <>
    (empty_store, send_json (Rows (employees empty_store))) /\
  fst (run decimal_rowid empty_store
           [post_employee "Ana" "eng" "active";
            post_employee "Bo" "eng" "active";
            put_employee "1" []]) = nameless_store /\
  Server.searchEmployeesByName nameless_store [("name", JStr "")] =
    (nameless_store, send_json (Rows [bo])) /\
  Server.searchEmployeesByName nameless_store [("name", JStr "")] <>
    (nameless_store, send_json (Rows (employees nameless_store))).
Proof.
  split; [reflexivity|]. split; [discriminate|].
  split; [reflexivity|]. split; [reflexivity|]. discriminate.
Qed.

(** *** Substring search against exact search *)

(** C9.  The module's [searchEmployeesByName] (equality) and the handler of
    GET /employees/search (LIKE with [%] on both sides) are not equivalent:
    in the store that holds Ana alone, the query "An", a strict part of her
    name, gives her row through the handler and no row through the module;
    so some store and query give different result sets. *)
Theorem search_exact_and_like_differ :
  Server.searchEmployeesByName ana_store [("name", JStr "An")] =
    (ana_store, send_json (Rows [ana])) /\
  DataAccess.searchEmployeesByName ana_store (JStr "An") = [] /\
  exists (st : store) (name : string),
    result_set (snd (Server.searchEmployeesByName st [("name", JStr name)]))
    <> DataAccess.searchEmployeesByName st (JStr name).
Proof.
  split; [reflexivity|]. split; [reflexivity|].
  exists ana_store, "An". vm_compute. discriminate.
Qed.

(** ** Ids over a run of the service *)

(** A JavaScript number holds a rowid up to 2^53 as it is. *)
Lemma js_number_exact (k : Z) :
  0 <= k <= EXACT_LIMIT -> js_number k = k.
Proof.
  intros [H0 Hk]. unfold js_number, round_to_double.
  destruct (k <? 0) eqn:Hneg; [apply Z.ltb_lt in Hneg; lia|].
  destruct (k <? EXACT_LIMIT) eqn:Hlt; [reflexivity|].
  apply Z.ltb_ge in Hlt. assert (k = EXACT_LIMIT) as -> by lia.
  reflexivity.
Qed.

Lemma max_rowid_nonneg (es : list employee) : 0 <= max_rowid es.
Proof. induction es as [|a es IH]; simpl; lia. Qed.

Lemma step_ok_same (st st' : store) (r : response) :
  sequence st' = sequence st ->
  (forall k n ro s, payload r <> Created k n ro s) ->
  step_ok st (st', r).
Proof.
  intros Hs Hp. split; simpl.
  - rewrite Hs. lia.
  - intros k n ro s H. now apply Hp in H.
Qed.

Lemma create_step_ok (st : store) (body : object) :
  step_ok st (Server.createEmployee st body).
Proof.
  unfold Server.createEmployee.
  destruct (falsy _ || falsy _ || falsy _);
    [apply step_ok_same; [reflexivity|discriminate]|].
  unfold sql_insert_employee.
  destruct (MAX_ROWID <=? _);
    [apply step_ok_same; [reflexivity|discriminate]|].
  pose proof (max_rowid_nonneg (employees st)) as Hnn.
  split; simpl.
  - lia.
  - intros k n ro s [= <- _ _ _]. repeat split; lia.
Qed.

Section Runs.

Variable rowid_of_text : string -> option Z.

Ltac same_sequence :=
  apply step_ok_same; [reflexivity|discriminate].

Lemma routes_step_ok :
  Forall (fun route : method * list segment * handler =>
            forall st ps rq, step_ok st (snd route st ps rq))
         (routes rowid_of_text).
Proof.
  unfold routes. repeat apply Forall_cons; try apply Forall_nil;
    intros st ps rq; cbn [snd].
  - apply create_step_ok.
  - unfold Server.getEmployeeById.
    destruct (sql_select_employee _ _ _); same_sequence.
  - unfold Server.updateEmployee, sql_update_employee.
    destruct (Nat.eqb _ 0); same_sequence.
  - unfold Server.deleteEmployee, sql_delete_employee.
    destruct (Nat.eqb _ 0); same_sequence.
  - unfold Server.assignRoleToEmployee, sql_update_role.
    destruct (Nat.eqb _ 0); same_sequence.
  - unfold Server.searchEmployeesByName. cbv zeta.
    destruct (sql_all_name_like _ _) as [rows|]; [|same_sequence].
    destruct (Nat.eqb _ 0); same_sequence.
  - same_sequence.
  - same_sequence.
  - unfold Server.createRole, sql_insert_role.
    destruct (falsy _); [same_sequence|].
    destruct (existsb _ _); same_sequence.
  - unfold Server.deleteRole, sql_delete_role.
    destruct (Nat.eqb _ 0); same_sequence.
  - unfold Server.updateEmployeeStatus, sql_update_status.
    destruct (Nat.eqb _ 0); same_sequence.
  - unfold Server.getEmployeeDetails.
    destruct (sql_select_details _ _ _) as [[row roleName]|]; same_sequence.
Qed.

Lemma dispatch_step_ok (rs : list (method * list segment * handler))
      (st : store) (rq : request) :
  Forall (fun route : method * list segment * handler =>
            forall st ps rq, step_ok st (snd route st ps rq)) rs ->
  step_ok st (dispatch rs st rq).
Proof.
  induction 1 as [|[[m pat] h] rs Hh _ IH]; simpl.
  - apply step_ok_same; [reflexivity|discriminate].
  - destruct (method_eqb m (req_method rq)); [|exact IH].
    destruct (match_path pat (req_path rq)) as [ps|]; [|exact IH].
    apply Hh.
Qed.

Lemma serve_step_ok (st : store) (rq : request) :
  step_ok st (serve rowid_of_text st rq).
Proof. apply dispatch_step_ok, routes_step_ok. Qed.

(** Over any run, from any store, the counter never goes down; and when
    it ends within the integers that JavaScript numbers hold, every id
    handed out lies above the counter the run started with and the ids come
    out in strictly increasing order. *)
Lemma run_ids (rqs : list request) :
  forall st,
    sequence st <= sequence (fst (run rowid_of_text st rqs)) /\
    (sequence (fst (run rowid_of_text st rqs)) <= EXACT_LIMIT ->
     Forall (fun k => sequence st < k <=
                      sequence (fst (run rowid_of_text st rqs)))
            (created_ids (snd (run rowid_of_text st rqs))) /\
     StronglySorted Z.lt (created_ids (snd (run rowid_of_text st rqs)))).
Proof.
  induction rqs as [|rq rqs IH]; intros st; simpl.
  - split; [apply Z.le_refl|]. intros _. split; constructor.
  - pose proof (serve_step_ok st rq) as [Hle Hid].
    destruct (serve rowid_of_text st rq) as [st1 r]. simpl in Hle, Hid.
    specialize (IH st1). destruct (run rowid_of_text st1 rqs) as [st2 rs].
    simpl in *. destruct IH as [Hle' IH]. destruct Hle as [Hle _].
    split; [lia|]. intros Hlim. destruct (IH Hlim) as [Hall Hsorted].
    assert (Hall' : Forall (fun k => sequence st < k <= sequence st2)
                           (created_ids rs)).
    { eapply Forall_impl; [|exact Hall]. simpl. intros k Hk. lia. }
    destruct (payload r) as [| |k n ro s| | | | | | | | | |] eqn:Hr;
      try (split; assumption).
    destruct (Hid k n ro s eq_refl) as [Hlt [Hpos Hk]].
    rewrite js_number_exact in Hk by lia. subst k.
    split; constructor; try assumption; try lia.
    eapply Forall_impl; [|exact Hall]. simpl. intros k Hk. lia.
Qed.

End Runs.

(** The role scenario of the specification: creating a role twice gives
    201 and then 500, deleting it twice 200 and then 404. *)
Example roles_scenario :
  map code
      (snd (run decimal_rowid empty_store
                [post_role "eng"; post_role "eng";
                 delete_role "eng"; delete_role "eng"])) =
    [201; 500; 200; 404].
Proof. reflexivity. Qed.

(** ** Route order *)

(** GET /employees/:id is registered before GET /employees/search and takes
    every request for the path /employees/search, with "search" as the id. *)
Lemma search_route_shadowed (rowid_of_text : string -> option Z)
      (st : store) (query body : object) :
  serve rowid_of_text st (mkRequest GET ["employees"; "search"] query body) =
    Server.getEmployeeById rowid_of_text st "search".
Proof. reflexivity. Qed.

(** ** The theorems at concrete stores *)

Lemma ana_present : present decimal_rowid "1" ana_store.
Proof. exists ana. split; [now left|reflexivity]. Defined.

Lemma seven_absent : absent decimal_rowid "7" ana_store.
Proof. intros e [<-|[]]. discriminate. Defined.

Lemma absent_id_not_found_witness :
  Server.getEmployeeById decimal_rowid ana_store "7" = (ana_store, not_found) /\
  Server.updateEmployee decimal_rowid ana_store "7"
                        (employee_body "Ann" "ops" "away") =
    (ana_store, not_found) /\
  Server.deleteEmployee decimal_rowid ana_store "7" = (ana_store, not_found) /\
  Server.assignRoleToEmployee decimal_rowid ana_store "7"
                              (employee_body "Ann" "ops" "away") =
    (ana_store, not_found) /\
  Server.updateEmployeeStatus decimal_rowid ana_store "7"
                              (employee_body "Ann" "ops" "away") =
    (ana_store, not_found) /\
  Server.getEmployeeDetails decimal_rowid ana_store "7" =
    (ana_store, not_found).
Proof.
  exact (absent_id_not_found decimal_rowid ana_store "7"
           (employee_body "Ann" "ops" "away") seven_absent).
Defined.

Lemma update_then_get_witness :
  exists k,
    decimal_rowid "1" = Some k /\
    snd (Server.getEmployeeById decimal_rowid
           (fst (Server.updateEmployee decimal_rowid ana_store "1"
                   (employee_body "Ann" "ops" "away")))
           "1") =
      send_json (Row (mkEmployee k (Some "Ann") (Some "ops") (Some "away"))).
Proof.
  exact (update_then_get decimal_rowid ana_store "1"
           (employee_body "Ann" "ops" "away") "Ann" "ops" "away"
           ana_present eq_refl eq_refl eq_refl).
Defined.

Lemma update_without_validation_witness :
  exists row,
    snd (Server.updateEmployee decimal_rowid ana_store "1" []) =
      send_json (Updated "1" JUndefined JUndefined JUndefined) /\
    code (snd (Server.updateEmployee decimal_rowid ana_store "1" [])) <> 400 /\
    sql_select_employee decimal_rowid "1"
      (fst (Server.updateEmployee decimal_rowid ana_store "1" [])) = Some row /\
    decimal_rowid "1" = Some (emp_id row) /\
    (prop [] "name" = JUndefined -> emp_name row = None) /\
    (prop [] "role" = JUndefined -> emp_role row = None) /\
    (prop [] "status" = JUndefined -> emp_status row = None).
Proof.
  exact (update_without_validation decimal_rowid ana_store "1" [] ana_present).
Defined.

Lemma details_of_dangling_role_witness :
  exists e,
    In e (employees ops_store) /\ decimal_rowid "1" = Some (emp_id e) /\
    Server.getEmployeeDetails decimal_rowid ops_store "1" =
      (ops_store, send_json (Details e None)).
Proof.
  apply (proj1 (details_of_dangling_role decimal_rowid ops_store "1")).
  - exists ana. split; [now left|reflexivity].
  - intros e [<-|[]] _ n [= <-] [H|[]]. discriminate.
Defined.

Lemma create_rejects_missing_field_witness :
  Server.createEmployee ana_store [("name", JStr "Bo"); ("role", JStr "")] =
    (ana_store, status_json 400 (Error "Missing required fields.")).
Proof.
  apply create_rejects_missing_field.
  right. left. right. reflexivity.
Defined.

Lemma delete_role_keeps_employees_witness :
  employees (fst (Server.deleteRole eng_store "eng")) = [ana] /\
  roles (fst (Server.deleteRole eng_store "eng")) = [] /\
  In ana (employees (fst (Server.deleteRole eng_store "eng"))).
Proof.
  destruct (delete_role_keeps_employees eng_store "eng") as [He [_ Hin]].
  split; [exact He|]. split; [reflexivity|].
  apply Hin; [now left|reflexivity].
Defined.


Lemma search_empty_name_witness :
  Server.searchEmployeesByName ana_store [("name", JStr "")] =
    (ana_store, send_json (Rows [ana])).
Proof.
  destruct (search_empty_name ana_store [("name", JStr "")] eq_refl)
    as [_ [_ H]].
  apply H.
  - discriminate.
  - intros e [<-|[]]. discriminate.
Defined.

(** * Further properties of the handlers *)

(** ** More on lists of rows *)

Section MoreRows.

Context {A : Type}.
Variable f : A -> bool.

Lemma filter_length_zero (l : list A) :
  List.length (filter f l) = 0%nat -> find f l = None.
Proof.
  induction l as [|a l IH]; simpl; [reflexivity|].
  destruct (f a); simpl; [discriminate|exact IH].
Qed.

Lemma find_snoc_fresh (l : list A) (x : A) :
  (forall y, In y l -> f y = false) -> f x = true ->
  find f (l ++ [x]) = Some x.
Proof.
  intros Hl Hx. induction l as [|a l IH]; simpl.
  - now rewrite Hx.
  - rewrite (Hl a (or_introl eq_refl)). apply IH.
    intros y Hy. apply Hl. now right.
Qed.

Lemma in_map_if (g : A -> A) (l : list A) (x : A) :
  (forall y, f (g y) = f y) -> f x = false ->
  (In x (map (fun y => if f y then g y else y) l) <-> In x l).
Proof.
  intros Hg Hx. induction l as [|a l IH]; simpl; [tauto|].
  rewrite IH. destruct (f a) eqn:Ha; [|tauto].
  split; intros [H|H]; auto.
  - subst x. rewrite Hg in Hx. congruence.
  - subst x. congruence.
Qed.

End MoreRows.

Lemma max_rowid_ge (es : list employee) (e : employee) :
  In e es -> emp_id e <= max_rowid es.
Proof.
  induction es as [|a es IH]; simpl; [contradiction|].
  intros [->|H]; [lia|]. specialize (IH H). lia.
Qed.

Lemma sorted_snoc (l : list Z) (k : Z) :
  StronglySorted Z.lt l -> Forall (fun x => x < k) l ->
  StronglySorted Z.lt (l ++ [k]).
Proof.
  induction 1 as [|a l Hs IH Ha]; intros Hk; simpl.
  - repeat constructor.
  - inversion Hk as [|? ? Hak Hk']; subst.
    constructor; [now apply IH|].
    apply Forall_app. split; [exact Ha|]. repeat constructor. exact Hak.
Qed.

Lemma sorted_filter (g : employee -> bool) (l : list employee) :
  StronglySorted Z.lt (map emp_id l) ->
  StronglySorted Z.lt (map emp_id (filter g l)).
Proof.
  induction l as [|a l IH]; simpl; [constructor|].
  intros H. inversion H as [|? ? Hs Ha]; subst.
  destruct (g a); simpl; [|now apply IH].
  constructor; [now apply IH|].
  rewrite Forall_forall in *. intros x Hx. apply Ha.
  apply in_map_iff in Hx. destruct Hx as [e [<- He]].
  apply in_map. apply filter_In in He. tauto.
Qed.

(** In a table sorted by id, the first row an id finds is the only one. *)
Lemma sorted_find_unique (g : employee -> bool) (l : list employee)
      (e : employee) :
  StronglySorted Z.lt (map emp_id l) ->
  (forall x y, g x = true -> g y = true -> emp_id x = emp_id y) ->
  In e l -> g e = true ->
  find g l = Some e /\ filter g l = [e].
Proof.
  intros Hs Hg. induction l as [|a l IH]; simpl; [contradiction|].
  inversion Hs as [|? ? Hs' Ha]; subst.
  rewrite Forall_forall in Ha.
  assert (Hlater : forall x, In x l -> g a = true -> g x = false).
  { intros x Hx Hga. destruct (g x) eqn:Hgx; [|reflexivity].
    specialize (Ha (emp_id x) (in_map _ _ _ Hx)).
    specialize (Hg a x Hga Hgx). lia. }
  intros [->|Hin] He.
  - rewrite He. split; [reflexivity|]. f_equal.
    apply filter_none, find_none_all_false.
    intros x Hx. now apply Hlater.
  - destruct (g a) eqn:Hga.
    + rewrite (Hlater e Hin eq_refl) in He. discriminate.
    + now apply IH.
Qed.

(** ** Create, read and delete *)

Section Lifecycle.

Variable rowid_of_text : string -> option Z.

Abbreviation getEmployeeById := (Server.getEmployeeById rowid_of_text).
Abbreviation deleteEmployee := (Server.deleteEmployee rowid_of_text).
Abbreviation assignRoleToEmployee :=
  (Server.assignRoleToEmployee rowid_of_text).
Abbreviation updateEmployeeStatus :=
  (Server.updateEmployeeStatus rowid_of_text).
Abbreviation getEmployeeDetails := (Server.getEmployeeDetails rowid_of_text).

Lemma id_is_true (p : string) (e : employee) :
  id_is rowid_of_text p e = true <-> rowid_of_text p = Some (emp_id e).
Proof.
  unfold id_is. destruct (rowid_of_text p) as [k|].
  - rewrite Z.eqb_eq. split; [now intros ->|now intros [= ->]].
  - split; discriminate.
Qed.

Lemma id_is_false (p : string) (e : employee) :
  id_is rowid_of_text p e = false <-> rowid_of_text p <> Some (emp_id e).
Proof.
  rewrite <- id_is_true. now destruct (id_is rowid_of_text p e).
Qed.

(** X1.  A successful Create appends the row with the next id and answers
    with that id as a JavaScript number, the id itself up to 2^53; GetById
    under any text that reads as the id returns exactly that row. *)
Theorem create_then_get (st : store) (body : object) (id : string) :
  falsy (prop body "name") = false ->
  falsy (prop body "role") = false ->
  falsy (prop body "status") = false ->
  Z.max (max_rowid (employees st)) (sequence st) < MAX_ROWID ->
  exists k row st',
    k = Z.max (max_rowid (employees st)) (sequence st) + 1 /\
    row = mkEmployee k (bind (prop body "name")) (bind (prop body "role"))
                     (bind (prop body "status")) /\
    Server.createEmployee st body =
      (st', status_json 201 (Created (js_number k) (prop body "name")
                                     (prop body "role")
                                     (prop body "status"))) /\
    (k <= EXACT_LIMIT -> js_number k = k) /\
    employees st' = (employees st ++ [row])%list /\
    roles st' = roles st /\
    sequence st' = k /\
    (rowid_of_text id = Some k ->
     getEmployeeById st' id = (st', send_json (Row row))).
Proof.
  intros Hn Hr Hs Hmax.
  eexists _, _, _. split; [reflexivity|]. split; [reflexivity|].
  unfold Server.createEmployee, sql_insert_employee.
  rewrite Hn, Hr, Hs. simpl orb. cbv iota.
  destruct (MAX_ROWID <=? _) eqn:Hle; [apply Z.leb_le in Hle; lia|].
  split; [reflexivity|].
  split.
  { intros Hk. apply js_number_exact.
    pose proof (max_rowid_nonneg (employees st)). lia. }
  simpl. repeat split.
  intros Hid. unfold Server.getEmployeeById, sql_select_employee. simpl.
  rewrite find_snoc_fresh; [reflexivity| |].
  - intros y Hy. apply id_is_false. rewrite Hid. intros [= Hk].
    pose proof (max_rowid_ge _ _ Hy). lia.
  - apply id_is_true. exact Hid.
Qed.

(** X2.  Create answers 500 exactly when the three fields pass the check and
    the largest id ever assigned is the largest rowid; the store is then
    the one before. *)
Theorem create_exhausted (st : store) (body : object) :
  (code (snd (Server.createEmployee st body)) = 500 <->
   falsy (prop body "name") = false /\
   falsy (prop body "role") = false /\
   falsy (prop body "status") = false /\
   MAX_ROWID <= Z.max (max_rowid (employees st)) (sequence st)) /\
  (code (snd (Server.createEmployee st body)) = 500 ->
   Server.createEmployee st body =
     (st, status_json 500 (Error "Failed to create employee."))).
Proof.
  unfold Server.createEmployee, sql_insert_employee.
  destruct (falsy (prop body "name")), (falsy (prop body "role")),
    (falsy (prop body "status")); simpl;
    try (split; [split; [discriminate|intros [? [? [? _]]]; discriminate]
                |discriminate]).
  destruct (MAX_ROWID <=? _) eqn:Hle; simpl.
  - apply Z.leb_le in Hle. split; [|reflexivity].
    split; [intros _; repeat split; exact Hle|reflexivity].
  - apply Z.leb_gt in Hle. split; [|discriminate].
    split; [discriminate|intros [_ [_ [_ H]]]; lia].
Qed.

(** X3.  In a table sorted by id, GetById returns the one row of that id, and
    a statement on that id changes exactly one row. *)
Theorem get_present (st : store) (id : string) (e : employee) :
  StronglySorted Z.lt (map emp_id (employees st)) ->
  In e (employees st) ->
  rowid_of_text id = Some (emp_id e) ->
  getEmployeeById st id = (st, send_json (Row e)) /\
  changes rowid_of_text id st = 1%nat.
Proof.
  intros Hs He Hid.
  destruct (sorted_find_unique (id_is rowid_of_text id) (employees st) e Hs)
    as [Hfind Hfilter]; [|exact He|now apply id_is_true|].
  - intros x y Hx Hy. apply id_is_true in Hx, Hy. congruence.
  - unfold Server.getEmployeeById, sql_select_employee, changes.
    now rewrite Hfind, Hfilter.
Qed.

(** X4.  Delete of an id that names a row answers 200 and removes every row of
    that id and no other; the id is absent afterwards, so GetById and a
    second Delete answer 404.  The counter and the roles are untouched. *)
Theorem delete_then_get (st : store) (id : string) :
  present rowid_of_text id st ->
  exists st',
    deleteEmployee st id =
      (st', send_json (Message "Employee deleted successfully.")) /\
    (forall e, In e (employees st') <->
               In e (employees st) /\ rowid_of_text id <> Some (emp_id e)) /\
    sequence st' = sequence st /\
    roles st' = roles st /\
    absent rowid_of_text id st' /\
    getEmployeeById st' id = (st', not_found) /\
    deleteEmployee st' id = (st', not_found).
Proof.
  intros H. pose proof (present_changes _ _ _ H) as Hch.
  eexists. unfold Server.deleteEmployee at 1, sql_delete_employee.
  rewrite Hch. split; [reflexivity|].
  set (st' := mkStore _ _ _).
  assert (Hin : forall e, In e (employees st') <->
                          In e (employees st) /\
                          rowid_of_text id <> Some (emp_id e)).
  { intros e. simpl. rewrite filter_In, negb_true_iff, id_is_false.
    reflexivity. }
  assert (Habs : absent rowid_of_text id st').
  { intros e He. now apply Hin in He. }
  split; [exact Hin|]. split; [reflexivity|]. split; [reflexivity|].
  split; [exact Habs|].
  pose proof (absent_find _ _ _ Habs) as Hfind.
  pose proof (absent_changes _ _ _ Habs) as Hch'.
  unfold Server.getEmployeeById, Server.deleteEmployee, sql_select_employee,
    sql_delete_employee.
  rewrite Hfind, Hch'. simpl Nat.eqb. cbv iota.
  rewrite (filter_negb_none _ _ Hfind), store_eta. split; reflexivity.
Qed.

End Lifecycle.

(** ** Single-field updates and details *)

Section Fields.

Variable rowid_of_text : string -> option Z.

Abbreviation assignRole := (Server.assignRoleToEmployee rowid_of_text).
Abbreviation updateStatus := (Server.updateEmployeeStatus rowid_of_text).
Abbreviation getDetails := (Server.getEmployeeDetails rowid_of_text).

(** What an UPDATE of the rows of one id does to the table, for any way
    [g] of rewriting a row that keeps its id. *)
Lemma update_rows (g : employee -> employee) (st : store) (id : string) :
  (forall e, emp_id (g e) = emp_id e) ->
  present rowid_of_text id st ->
  let rows := map (fun e => if id_is rowid_of_text id e then g e else e)
                  (employees st) in
  (exists e, In e (employees st) /\ rowid_of_text id = Some (emp_id e) /\
             find (id_is rowid_of_text id) rows = Some (g e)) /\
  (forall e, rowid_of_text id <> Some (emp_id e) ->
             (In e rows <-> In e (employees st))) /\
  List.length rows = List.length (employees st).
Proof.
  intros Hg H rows.
  assert (Hkeep : forall y, id_is rowid_of_text id (g y) =
                            id_is rowid_of_text id y).
  { intros y. unfold id_is. now rewrite Hg. }
  split; [|split].
  - destruct (present_find _ _ _ H) as [e [He [Hin Hk]]].
    exists e. split; [exact Hin|]. split; [exact Hk|].
    apply find_map_if; [|exact He]. intros y Hy. now rewrite Hkeep.
  - intros e He. apply in_map_if; [exact Hkeep|].
    now apply id_is_false.
  - apply length_map.
Qed.

(** X5.  AssignRole on an id that names a row answers 200 and writes the role
    of the body, NULL when the body has none, into the rows of that id,
    keeping their id, name and status; every other row, the number of rows,
    the counter and the roles table stay as they were. *)
Theorem assign_role_sets_role (st : store) (id : string) (body : object) :
  present rowid_of_text id st ->
  exists st',
    assignRole st id body =
      (st', send_json (Message "Role assigned successfully.")) /\
    (exists e, In e (employees st) /\ rowid_of_text id = Some (emp_id e) /\
               sql_select_employee rowid_of_text id st' =
                 Some (mkEmployee (emp_id e) (emp_name e)
                                  (bind (prop body "role")) (emp_status e))) /\
    (forall e, rowid_of_text id <> Some (emp_id e) ->
               (In e (employees st') <-> In e (employees st))) /\
    List.length (employees st') = List.length (employees st) /\
    sequence st' = sequence st /\
    roles st' = roles st.
Proof.
  intros H. pose proof (present_changes _ _ _ H) as Hch.
  eexists. unfold Server.assignRoleToEmployee, sql_update_role.
  rewrite Hch. split; [reflexivity|].
  destruct (update_rows
              (fun e => mkEmployee (emp_id e) (emp_name e)
                                   (bind (prop body "role")) (emp_status e))
              st id (fun _ => eq_refl) H) as [Hfirst [Hrest Hlen]].
  unfold sql_select_employee. simpl.
  split; [exact Hfirst|]. split; [exact Hrest|]. split; [exact Hlen|].
  split; reflexivity.
Qed.

(** X6.  UpdateStatus on an id that names a row answers 200 and writes the
    status of the body, NULL when the body has none, into the rows of that
    id, keeping their id, name and role; every other row, the number of
    rows, the counter and the roles table stay as they were. *)
Theorem update_status_sets_status (st : store) (id : string) (body : object) :
  present rowid_of_text id st ->
  exists st',
    updateStatus st id body =
      (st', send_json (Message "Employee status updated successfully.")) /\
    (exists e, In e (employees st) /\ rowid_of_text id = Some (emp_id e) /\
               sql_select_employee rowid_of_text id st' =
                 Some (mkEmployee (emp_id e) (emp_name e) (emp_role e)
                                  (bind (prop body "status")))) /\
    (forall e, rowid_of_text id <> Some (emp_id e) ->
               (In e (employees st') <-> In e (employees st))) /\
    List.length (employees st') = List.length (employees st) /\
    sequence st' = sequence st /\
    roles st' = roles st.
Proof.
  intros H. pose proof (present_changes _ _ _ H) as Hch.
  eexists. unfold Server.updateEmployeeStatus, sql_update_status.
  rewrite Hch. split; [reflexivity|].
  destruct (update_rows
              (fun e => mkEmployee (emp_id e) (emp_name e) (emp_role e)
                                   (bind (prop body "status")))
              st id (fun _ => eq_refl) H) as [Hfirst [Hrest Hlen]].
  unfold sql_select_employee. simpl.
  split; [exact Hfirst|]. split; [exact Hrest|]. split; [exact Hlen|].
  split; reflexivity.
Qed.

(** X7.  Update on an id that names a row leaves every row of another id, the
    number of rows, the counter and the roles table as they were. *)
Theorem update_keeps_others (st : store) (id : string) (body : object) :
  present rowid_of_text id st ->
  let st' := fst (Server.updateEmployee rowid_of_text st id body) in
  (forall e, rowid_of_text id <> Some (emp_id e) ->
             (In e (employees st') <-> In e (employees st))) /\
  List.length (employees st') = List.length (employees st) /\
  sequence st' = sequence st /\
  roles st' = roles st.
Proof.
  intros H. unfold Server.updateEmployee, sql_update_employee.
  destruct (Nat.eqb _ 0); simpl;
    destruct (update_rows
                (fun e => mkEmployee (emp_id e) (bind (prop body "name"))
                                     (bind (prop body "role"))
                                     (bind (prop body "status")))
                st id (fun _ => eq_refl) H) as [_ [Hrest Hlen]];
    repeat split; try apply Hrest; auto.
Qed.

(** X8.  GetDetails on the row of an id whose role is a row of [roles] answers
    200 with the record and that role as [roleName]. *)
Theorem details_of_known_role (st : store) (id : string) (e : employee)
        (r : string) :
  StronglySorted Z.lt (map emp_id (employees st)) ->
  In e (employees st) ->
  rowid_of_text id = Some (emp_id e) ->
  emp_role e = Some r ->
  In (Some r) (roles st) ->
  getDetails st id = (st, send_json (Details e (Some r))).
Proof.
  intros Hs He Hid Hr Hin.
  destruct (sorted_find_unique (id_is rowid_of_text id) (employees st) e Hs)
    as [Hfind _]; [|exact He|now apply id_is_true|].
  { intros x y Hx Hy. apply id_is_true in Hx, Hy. congruence. }
  unfold Server.getEmployeeDetails, sql_select_details, role_name.
  rewrite Hfind, Hr.
  destruct (find_in_some (text_eq (Some r)) (roles st) (Some r) Hin)
    as [y Hy]; [apply String.eqb_refl|].
  rewrite Hy. apply find_some in Hy. destruct Hy as [_ Hy].
  destruct y as [y|]; [|discriminate].
  apply String.eqb_eq in Hy. now subst y.
Qed.

End Fields.

(** ** The roles table *)

Lemma existsb_text_eq (s : string) (rs : list sqltext) :
  existsb (text_eq (Some s)) rs = true <-> In (Some s) rs.
Proof.
  rewrite existsb_exists. split.
  - intros [r [Hin Heq]]. destruct r as [y|]; [|discriminate].
    apply String.eqb_eq in Heq. now subst y.
  - intros Hin. exists (Some s). split; [exact Hin|apply String.eqb_refl].
Qed.

Lemma text_eq_some (s : string) (r : sqltext) :
  text_eq (Some s) r = true <-> r = Some s.
Proof.
  destruct r as [y|]; simpl.
  - rewrite String.eqb_eq. split; [now intros ->|now intros [= ->]].
  - split; discriminate.
Qed.

(** X9.  CreateRole answers 400 for a missing or empty name and 500 for a name
    that is already a role, the store unchanged in both cases; any other
    name is appended to [roles] with 201, the employees untouched. *)
Theorem create_role_cases (st : store) (body : object) :
  (falsy (prop body "name") = true ->
   Server.createRole st body =
     (st, status_json 400 (Error "Missing role name."))) /\
  (forall s, prop body "name" = JStr s -> s <> "" ->
             In (Some s) (roles st) ->
             Server.createRole st body =
               (st, status_json 500 (Error "Failed to create role."))) /\
  (forall s, prop body "name" = JStr s -> s <> "" ->
             ~ In (Some s) (roles st) ->
             Server.createRole st body =
               (mkStore (employees st) (roles st ++ [Some s]) (sequence st),
                status_json 201 (RoleCreated (JStr s)))).
Proof.
  unfold Server.createRole, sql_insert_role. split; [|split].
  - intros ->. reflexivity.
  - intros s -> Hs Hin. simpl.
    apply String.eqb_neq in Hs. rewrite Hs.
    apply existsb_text_eq in Hin. now rewrite Hin.
  - intros s -> Hs Hin. simpl.
    apply String.eqb_neq in Hs. rewrite Hs.
    destruct (existsb (text_eq (Some s)) (roles st)) eqn:He; [|reflexivity].
    apply existsb_text_eq in He. contradiction.
Qed.

(** X10.  DeleteRole answers 404 and changes nothing for a name that is no role;
    for a role it answers 200 and removes that name and no other, so that
    a second DeleteRole of the name answers 404. *)
Theorem delete_role_cases (st : store) (name : string) :
  (~ In (Some name) (roles st) ->
   Server.deleteRole st name =
     (st, status_json 404 (Error "Role not found."))) /\
  (In (Some name) (roles st) ->
   exists st',
     Server.deleteRole st name =
       (st', send_json (Message "Role deleted successfully.")) /\
     (forall r, In r (roles st') <-> In r (roles st) /\ r <> Some name) /\
     Server.deleteRole st' name =
       (st', status_json 404 (Error "Role not found."))).
Proof.
  assert (Hgone : forall st0, ~ In (Some name) (roles st0) ->
            Server.deleteRole st0 name =
              (st0, status_json 404 (Error "Role not found."))).
  { intros st0 Hn. unfold Server.deleteRole, sql_delete_role.
    assert (Hf : find (text_eq (Some name)) (roles st0) = None).
    { apply find_none_all_false. intros r Hr.
      destruct (text_eq (Some name) r) eqn:He; [|reflexivity].
      apply text_eq_some in He. subst r. contradiction. }
    rewrite (filter_none _ _ Hf), (filter_negb_none _ _ Hf), store_eta.
    reflexivity. }
  split; [apply Hgone|].
  intros Hin.
  assert (Hroles : forall r,
            In r (filter (fun r => negb (text_eq (Some name) r)) (roles st))
            <-> In r (roles st) /\ r <> Some name).
  { intros r. rewrite filter_In, negb_true_iff.
    split; intros [Hr Hne]; split; auto.
    - intros ->. simpl in Hne. rewrite String.eqb_refl in Hne. discriminate.
    - destruct (text_eq (Some name) r) eqn:He; [|reflexivity].
      apply text_eq_some in He. contradiction. }
  eexists. unfold Server.deleteRole at 1, sql_delete_role.
  destruct (find_in_some (text_eq (Some name)) (roles st) (Some name) Hin)
    as [y Hy]; [apply String.eqb_refl|].
  apply filter_some_length in Hy. apply Nat.eqb_neq in Hy. rewrite Hy.
  split; [reflexivity|]. split; [exact Hroles|].
  apply Hgone. simpl. intros H. apply Hroles in H. now destruct H.
Qed.

(** ** What every request keeps *)

(** A test on every handler that may take a request is a test on the
    dispatcher. *)
Lemma dispatch_all (P : store * response -> Prop)
      (rs : list (method * list segment * handler))
      (st : store) (rq : request) :
  P (st, status_json 404 NoRoute) ->
  Forall (fun route : method * list segment * handler =>
            method_eqb (fst (fst route)) (req_method rq) = true ->
            forall ps, P (snd route st ps rq)) rs ->
  P (dispatch rs st rq).
Proof.
  intros Hnone. induction 1 as [|[[m pat] h] rs Hh _ IH]; simpl.
  - exact Hnone.
  - simpl in Hh. destruct (method_eqb m (req_method rq)); [|exact IH].
    destruct (match_path pat (req_path rq)) as [ps|]; [|exact IH].
    now apply Hh.
Qed.

Lemma outcome_same (rq : request) (st : store) (r : response) :
  known_code (code r) -> outcome_ok rq st (st, r).
Proof.
  intros H. split; [auto|]. split; [auto|]. split; [auto|exact H].
Qed.

Lemma well_formed_rows (st : store) (rows : list employee) :
  map emp_id rows = map emp_id (employees st) ->
  well_formed st ->
  well_formed (mkStore rows (roles st) (sequence st)).
Proof.
  intros Hids [Hsorted [Hbound [Hseq [Hnd Hne]]]].
  unfold well_formed. simpl. rewrite Hids.
  repeat split; auto; try apply Hseq.
  rewrite Forall_forall in *. intros e He.
  apply (in_map emp_id) in He. rewrite Hids in He.
  apply in_map_iff in He. destruct He as [e' [Heq He']].
  rewrite <- Heq. now apply Hbound.
Qed.

Lemma map_if_ids (f : employee -> bool) (g : employee -> employee)
      (l : list employee) :
  (forall e, emp_id (g e) = emp_id e) ->
  map emp_id (map (fun e => if f e then g e else e) l) = map emp_id l.
Proof.
  intros Hg. rewrite map_map. apply map_ext. intros e.
  now destruct (f e).
Qed.

Lemma forall_filter {A : Type} (P : A -> Prop) (f : A -> bool) (l : list A) :
  Forall P l -> Forall P (filter f l).
Proof.
  rewrite !Forall_forall. intros H x Hx. apply H.
  now apply filter_In in Hx.
Qed.

Lemma nodup_snoc {A : Type} (l : list A) (x : A) :
  NoDup l -> ~ In x l -> NoDup (l ++ [x]).
Proof.
  intros Hl Hx. apply NoDup_app; [exact Hl|repeat constructor; auto|].
  intros a Ha [<-|[]]. contradiction.
Qed.

Lemma falsy_false (v : jsval) :
  falsy v = false -> exists s, v = JStr s /\ s <> "" /\ bind v = Some s.
Proof.
  destruct v as [| |s]; simpl; try discriminate.
  intros H. exists s. repeat split. now apply String.eqb_neq.
Qed.

Section Outcomes.

Variable rowid_of_text : string -> option Z.

Ltac known := unfold known_code; simpl; tauto.

Lemma create_outcome (rq : request) (st : store) (body : object) :
  req_method rq <> GET ->
  outcome_ok rq st (Server.createEmployee st body).
Proof.
  intros Hm. unfold Server.createEmployee, sql_insert_employee.
  destruct (falsy _ || falsy _ || falsy _); [apply outcome_same; known|].
  destruct (MAX_ROWID <=? _) eqn:Hle; [apply outcome_same; known|].
  apply Z.leb_gt in Hle.
  split; [|split; [simpl; lia|split; [contradiction|known]]].
  intros [Hsorted [Hbound [Hseq [Hnd Hne]]]].
  unfold well_formed. simpl. rewrite map_app. simpl.
  pose proof (max_rowid_nonneg (employees st)) as Hnn.
  split; [|split; [|split; [lia|auto]]].
  - apply sorted_snoc; [exact Hsorted|].
    apply Forall_map. apply Forall_forall. intros e He.
    pose proof (max_rowid_ge _ _ He). lia.
  - apply Forall_app. split.
    + eapply Forall_impl; [|exact Hbound]. simpl. intros e He. lia.
    + repeat constructor; simpl; lia.
Qed.

Lemma where_id_outcome (rq : request) (st : store) (id : string)
      (g : employee -> employee) (ok : json) :
  (forall e, emp_id (g e) = emp_id e) ->
  req_method rq <> GET ->
  let st' :=
    mkStore (map (fun e => if id_is rowid_of_text id e then g e else e)
                 (employees st))
            (roles st) (sequence st) in
  outcome_ok rq st
    (if Nat.eqb (changes rowid_of_text id st) 0
     then (st', status_json 404 (Error "Employee not found."))
     else (st', send_json ok)).
Proof.
  intros Hg Hm st'.
  assert (Hwf : well_formed st -> well_formed st').
  { apply well_formed_rows. now apply map_if_ids. }
  destruct (Nat.eqb _ 0) eqn:Hch.
  - apply Nat.eqb_eq, filter_length_zero in Hch.
    assert (Hst : st' = st).
    { unfold st'. now rewrite (map_if_none _ _ _ Hch), store_eta. }
    rewrite Hst. apply outcome_same. known.
  - split; [exact Hwf|]. split; [simpl; lia|]. split; [contradiction|known].
Qed.

Lemma delete_outcome (rq : request) (st : store) (id : string) :
  req_method rq <> GET ->
  outcome_ok rq st (Server.deleteEmployee rowid_of_text st id).
Proof.
  intros Hm. unfold Server.deleteEmployee, sql_delete_employee.
  destruct (Nat.eqb _ 0) eqn:Hch.
  - apply Nat.eqb_eq, filter_length_zero in Hch.
    rewrite (filter_negb_none _ _ Hch), store_eta.
    apply outcome_same. known.
  - split; [|split; [simpl; lia|split; [contradiction|known]]].
    intros [Hsorted [Hbound [Hseq [Hnd Hne]]]].
    unfold well_formed. simpl.
    split; [now apply sorted_filter|].
    split; [now apply forall_filter|auto].
Qed.

Lemma create_role_outcome (rq : request) (st : store) (body : object) :
  req_method rq <> GET ->
  outcome_ok rq st (Server.createRole st body).
Proof.
  intros Hm. unfold Server.createRole, sql_insert_role.
  destruct (falsy (prop body "name")) eqn:Hf; [apply outcome_same; known|].
  destruct (falsy_false _ Hf) as [s [_ [Hs ->]]].
  destruct (existsb _ (roles st)) eqn:He; [apply outcome_same; known|].
  split; [|split; [simpl; lia|split; [contradiction|known]]].
  intros [Hsorted [Hbound [Hseq [Hnd Hne]]]].
  unfold well_formed. simpl. repeat split; auto; try apply Hseq.
  - apply nodup_snoc; [exact Hnd|].
    intros Hin. apply existsb_text_eq in Hin. congruence.
  - apply Forall_app. split; [exact Hne|].
    repeat constructor. now exists s.
Qed.

Lemma delete_role_outcome (rq : request) (st : store) (name : string) :
  req_method rq <> GET ->
  outcome_ok rq st (Server.deleteRole st name).
Proof.
  intros Hm. unfold Server.deleteRole, sql_delete_role.
  destruct (Nat.eqb _ 0) eqn:Hch.
  - apply Nat.eqb_eq, filter_length_zero in Hch.
    rewrite (filter_negb_none _ _ Hch), store_eta.
    apply outcome_same. known.
  - split; [|split; [simpl; lia|split; [contradiction|known]]].
    intros [Hsorted [Hbound [Hseq [Hnd Hne]]]].
    unfold well_formed. simpl. repeat split; auto; try apply Hseq.
    + now apply NoDup_filter.
    + now apply forall_filter.
Qed.

Lemma routes_outcome (st : store) (rq : request) :
  Forall (fun route : method * list segment * handler =>
            method_eqb (fst (fst route)) (req_method rq) = true ->
            forall ps, outcome_ok rq st (snd route st ps rq))
         (routes rowid_of_text).
Proof.
  unfold routes. repeat apply Forall_cons; try apply Forall_nil;
    cbn [fst snd]; intros Hm ps;
    assert (Hget : req_method rq = GET \/ req_method rq <> GET)
      by (destruct (req_method rq); (now left) || (right; discriminate)).
  - apply create_outcome. destruct (req_method rq); discriminate.
  - unfold Server.getEmployeeById.
    destruct (sql_select_employee _ _ _); apply outcome_same; known.
  - unfold Server.updateEmployee, sql_update_employee.
    apply (where_id_outcome rq st (param ps "id")
             (fun e => mkEmployee (emp_id e) _ _ _)); [reflexivity|].
    destruct (req_method rq); discriminate.
  - apply delete_outcome. destruct (req_method rq); discriminate.
  - unfold Server.assignRoleToEmployee, sql_update_role.
    apply (where_id_outcome rq st (param ps "id")
             (fun e => mkEmployee (emp_id e) (emp_name e) _ (emp_status e)));
      [reflexivity|].
    destruct (req_method rq); discriminate.
  - unfold Server.searchEmployeesByName. cbv zeta.
    destruct (sql_all_name_like _ _) as [rows|];
      [destruct (Nat.eqb _ 0)|]; apply outcome_same; known.
  - apply outcome_same; known.
  - apply outcome_same; known.
  - apply create_role_outcome. destruct (req_method rq); discriminate.
  - apply delete_role_outcome. destruct (req_method rq); discriminate.
  - unfold Server.updateEmployeeStatus, sql_update_status.
    apply (where_id_outcome rq st (param ps "id")
             (fun e => mkEmployee (emp_id e) (emp_name e) (emp_role e) _));
      [reflexivity|].
    destruct (req_method rq); discriminate.
  - unfold Server.getEmployeeDetails.
    destruct (sql_select_details _ _ _) as [[row roleName]|];
      apply outcome_same; known.
Qed.

Lemma serve_outcome (st : store) (rq : request) :
  outcome_ok rq st (serve rowid_of_text st rq).
Proof.
  unfold serve.
  apply (dispatch_all (outcome_ok rq st)); [|apply routes_outcome].
  apply outcome_same. unfold known_code. simpl. tauto.
Qed.

End Outcomes.

Section Service.

Variable rowid_of_text : string -> option Z.

(** X11.  A request answered with an error (400, 404 or 500) has changed
    nothing in the database. *)
Theorem error_changes_nothing (st : store) (rq : request) :
  400 <= code (snd (serve rowid_of_text st rq)) ->
  fst (serve rowid_of_text st rq) = st.
Proof. apply (serve_outcome rowid_of_text st rq). Qed.

(** X12.  A GET request changes nothing in the database, whatever its path. *)
Theorem get_changes_nothing (st : store) (rq : request) :
  req_method rq = GET ->
  fst (serve rowid_of_text st rq) = st.
Proof. apply (serve_outcome rowid_of_text st rq). Qed.

Lemma empty_store_well_formed : well_formed empty_store.
Proof.
  unfold well_formed, empty_store, MAX_ROWID. simpl.
  repeat split; try constructor; lia.
Qed.

Lemma run_well_formed (rqs : list request) :
  forall st, well_formed st -> well_formed (fst (run rowid_of_text st rqs)).
Proof.
  induction rqs as [|rq rqs IH]; intros st Hwf; simpl; [exact Hwf|].
  pose proof (serve_outcome rowid_of_text st rq) as [Hstep _].
  destruct (serve rowid_of_text st rq) as [st1 r]. simpl in Hstep.
  specialize (IH st1 (Hstep Hwf)).
  destruct (run rowid_of_text st1 rqs) as [st2 rs]. exact IH.
Qed.

(** X14.  Whatever requests the service has served since it started, its
    database is well formed: the employees lie in strictly increasing order
    of id, so no two share an id; the ids are positive and at most the
    counter; the role names are non-NULL, non-empty and distinct. *)
Theorem reachable_well_formed (rqs : list request) :
  well_formed (fst (run rowid_of_text empty_store rqs)).
Proof. apply run_well_formed, empty_store_well_formed. Qed.

End Service.


(** No route takes a path below /api-docs: a request for it whose body
    the parser lets through is answered by the documentation, and one that
    the parser refuses by the parser's error; neither touches the
    database. *)
Lemma api_docs_served
      (rowid_of_text : string -> option Z) (docs_status : incoming -> Z)
      (st : store) (i : incoming) :
  under_api_docs (in_path i) = true ->
  app rowid_of_text docs_status st i =
    match in_body i with
    | Parsed _ => (st, status_json (docs_status i) ApiDocs)
    | Refused status => (st, status_json status BodyRefused)
    end.
Proof.
  intros Hd. unfold app. destruct (in_body i) as [body|status];
    [|reflexivity].
  rewrite Hd.
  destruct (in_path i) as [|x path]; [discriminate|].
  cbn [under_api_docs] in Hd. apply String.eqb_eq in Hd.
  assert (Hm : matched (routes rowid_of_text) (in_method i) (x :: path)
               = false).
  { unfold matched, routes. cbn [existsb fst snd match_path].
    rewrite <- Hd.
    destruct (in_method i); reflexivity. }
  now rewrite Hm.
Qed.

(** ** The ids of Create *)

Lemma well_formed_max (st : store) :
  well_formed st -> max_rowid (employees st) <= sequence st.
Proof.
  intros [_ [Hbound [Hseq _]]].
  induction Hbound as [|e es He _ IH]; simpl; lia.
Qed.

(** From a well-formed store, a run raises the counter by one for each
    request at most. *)
Lemma run_counter (rowid_of_text : string -> option Z)
      (rqs : list request) :
  forall st,
    well_formed st ->
    sequence (fst (run rowid_of_text st rqs)) <=
      sequence st + Z.of_nat (List.length rqs).
Proof.
  induction rqs as [|rq rqs IH]; intros st Hwf.
  - simpl. lia.
  - cbn [run List.length].
    pose proof (serve_step_ok rowid_of_text st rq) as [[_ Hup] _].
    pose proof (serve_outcome rowid_of_text st rq) as [Hstep _].
    pose proof (well_formed_max st Hwf) as Hmax.
    destruct (serve rowid_of_text st rq) as [st1 r]. simpl in Hup, Hstep.
    specialize (IH st1 (Hstep Hwf)).
    destruct (run rowid_of_text st1 rqs) as [st2 rs]. simpl in *. lia.
Qed.

(** C3.  Over every sequence of requests, from every store, as long as
    the counter stays within the integers that JavaScript numbers hold (up
    to 2^53), the ids that Create hands out are strictly increasing, each
    above every id assigned before it, and all above the counter the
    sequence started with; Delete never gives an id back.  From the start
    of the service this covers every sequence of up to 2^53 requests.  In
    the scenario of the specification the ids are 1, 2 and, after employee
    1 is deleted, 3. *)
Theorem created_ids_increase
        (rowid_of_text : string -> option Z) (st : store)
        (rqs : list request) :
  (sequence (fst (run rowid_of_text st rqs)) <= EXACT_LIMIT ->
   StronglySorted Z.lt (created_ids (snd (run rowid_of_text st rqs))) /\
   Forall (fun k => sequence st < k)
          (created_ids (snd (run rowid_of_text st rqs)))) /\
  (Z.of_nat (List.length rqs) <= EXACT_LIMIT ->
   StronglySorted Z.lt
     (created_ids (snd (run rowid_of_text empty_store rqs))) /\
   Forall (fun k => 0 < k)
          (created_ids (snd (run rowid_of_text empty_store rqs)))) /\
  created_ids (snd (run decimal_rowid empty_store scenario)) = [1; 2; 3] /\
  map code (snd (run decimal_rowid empty_store scenario)) =
    [201; 201; 200; 404; 201].
Proof.
  split; [|split; [|split; reflexivity]].
  - intros Hlim.
    destruct (run_ids rowid_of_text rqs st) as [_ H].
    destruct (H Hlim) as [Hall Hsorted]. split; [exact Hsorted|].
    eapply Forall_impl; [|exact Hall]. simpl. intros k Hk. lia.
  - intros Hlen.
    pose proof (run_counter rowid_of_text rqs empty_store
                  empty_store_well_formed) as Hc.
    destruct (run_ids rowid_of_text rqs empty_store) as [_ H].
    simpl sequence in Hc at 2.
    destruct (H ltac:(lia)) as [Hall Hsorted]. split; [exact Hsorted|].
    eapply Forall_impl; [|exact Hall]. simpl. intros k Hk. lia.
Qed.

(** Beyond 2^53 the ids of the answers collide: from a counter of 2^54,
    two Creates in a row both answer with the id 2^54. *)
Example ids_collide_beyond_limit :
  created_ids
    (snd (run decimal_rowid (mkStore [] [] (2 * EXACT_LIMIT))
              [post_employee "Ana" "eng" "active";
               post_employee "Bo" "eng" "active"])) =
    [2 * EXACT_LIMIT; 2 * EXACT_LIMIT].
Proof. reflexivity. Qed.

(** ** Totals *)

Lemma filter_at_most_one {A : Type} (f : A -> bool) (l : list A) (a : A) :
  NoDup l -> (forall x, f x = true -> x = a) ->
  (List.length (filter f l) <= 1)%nat.
Proof.
  intros Hnd Hf. induction Hnd as [|x l Hx Hnd IH]; simpl; [lia|].
  destruct (f x) eqn:Hfx; [|exact IH].
  apply Hf in Hfx. subst x. simpl.
  assert (Hnone : filter f l = []).
  { apply filter_none, find_none_all_false. intros y Hy.
    destruct (f y) eqn:Hfy; [|reflexivity].
    apply Hf in Hfy. subst y. contradiction. }
  rewrite Hnone. simpl. lia.
Qed.

(** X15.  The total of GET /admin/total-employees follows the table: a 201
    Create makes it one more, and in a table sorted by id a 200 Delete
    makes it exactly one less. *)
Theorem total_employees_counts
        (rowid_of_text : string -> option Z) (st : store) :
  Server.getTotalEmployees st =
    (st, send_json (TotalEmployees (List.length (employees st)))) /\
  (forall body,
      code (snd (Server.createEmployee st body)) = 201 ->
      List.length (employees (fst (Server.createEmployee st body))) =
        S (List.length (employees st))) /\
  (forall id,
      StronglySorted Z.lt (map emp_id (employees st)) ->
      code (snd (Server.deleteEmployee rowid_of_text st id)) = 200 ->
      S (List.length
           (employees (fst (Server.deleteEmployee rowid_of_text st id)))) =
        List.length (employees st)).
Proof.
  split; [reflexivity|]. split.
  - intros body. unfold Server.createEmployee, sql_insert_employee.
    destruct (falsy _ || falsy _ || falsy _); [discriminate|].
    destruct (MAX_ROWID <=? _); [discriminate|].
    intros _. simpl. rewrite length_app. simpl. lia.
  - intros id Hs. unfold Server.deleteEmployee, sql_delete_employee.
    destruct (Nat.eqb _ 0) eqn:Hch; [discriminate|]. intros _. simpl.
    apply Nat.eqb_neq in Hch. unfold changes in Hch.
    destruct (filter (id_is rowid_of_text id) (employees st))
      as [|e rest] eqn:Hf; [contradiction|].
    assert (He : In e (filter (id_is rowid_of_text id) (employees st)))
      by (rewrite Hf; now left).
    apply filter_In in He. destruct He as [Hin He].
    destruct (sorted_find_unique (id_is rowid_of_text id) (employees st) e Hs)
      as [_ Hone]; [|exact Hin|exact He|].
    { intros x y Hx Hy. apply id_is_true in Hx, Hy. congruence. }
    pose proof (filter_length (id_is rowid_of_text id) (employees st)) as Hl.
    rewrite Hone in Hl. simpl in Hl. lia.
Qed.

(** X16.  The total of GET /admin/total-roles follows the table: a 201
    CreateRole makes it one more, and among distinct role names a 200
    DeleteRole makes it exactly one less. *)
Theorem total_roles_counts (st : store) :
  Server.getTotalRoles st =
    (st, send_json (TotalRoles (List.length (roles st)))) /\
  (forall body,
      code (snd (Server.createRole st body)) = 201 ->
      List.length (roles (fst (Server.createRole st body))) =
        S (List.length (roles st))) /\
  (forall name,
      NoDup (roles st) ->
      code (snd (Server.deleteRole st name)) = 200 ->
      S (List.length (roles (fst (Server.deleteRole st name)))) =
        List.length (roles st)).
Proof.
  split; [reflexivity|]. split.
  - intros body. unfold Server.createRole, sql_insert_role.
    destruct (falsy _); [discriminate|].
    destruct (existsb _ _); [discriminate|].
    intros _. simpl. rewrite length_app. simpl. lia.
  - intros name Hnd. unfold Server.deleteRole, sql_delete_role.
    destruct (Nat.eqb _ 0) eqn:Hch; [discriminate|]. intros _.
    cbn [fst roles].
    apply Nat.eqb_neq in Hch.
    pose proof (filter_at_most_one (text_eq (Some name)) (roles st)
                  (Some name) Hnd) as Hle.
    pose proof (filter_length (text_eq (Some name)) (roles st)) as Hl.
    assert (Hone : (List.length (filter (text_eq (Some name)) (roles st))
                    <= 1)%nat).
    { apply Hle. intros x Hx. now apply text_eq_some in Hx. }
    lia.
Qed.

(** ** The search route *)

Lemma fold_case_nonempty (s : string) :
  fold_case "search" = fold_case s -> s <> "".
Proof. intros H ->. discriminate. Qed.

(** X17.  No request reaches the search handler through the router: every GET
    whose path the route /employees/search matches, in any letter case, is
    taken by the route /employees/:id registered before it and answered by
    GetById with the last segment as id, hence with 404 when that segment
    does not read as a rowid. *)
Theorem search_route_never_taken
        (rowid_of_text : string -> option Z) (st : store) (rq : request) :
  req_method rq = GET ->
  match_path [Lit "employees"; Lit "search"] (req_path rq) <> None ->
  exists x id,
    req_path rq = [x; id] /\
    serve rowid_of_text st rq = Server.getEmployeeById rowid_of_text st id /\
    (rowid_of_text id = None ->
     serve rowid_of_text st rq = (st, not_found)).
Proof.
  destruct rq as [m path query body]. cbn [req_method req_path].
  intros -> Hmatch.
  destruct path as [|x [|y [|z path]]]; cbn [match_path] in Hmatch;
    try contradiction.
  - destruct (String.eqb (fold_case "employees") (fold_case x));
      contradiction.
  - destruct (String.eqb (fold_case "employees") (fold_case x)) eqn:Hx;
      [|contradiction].
    destruct (String.eqb (fold_case "search") (fold_case y)) eqn:Hy;
      [|contradiction].
    apply String.eqb_eq, fold_case_nonempty, String.eqb_neq in Hy.
    exists x, y. split; [reflexivity|].
    assert (Hserve : serve rowid_of_text st (mkRequest GET [x; y] query body)
                     = Server.getEmployeeById rowid_of_text st y).
    { unfold serve, routes, dispatch. cbn [method_eqb req_method req_path].
      cbn [match_path]. rewrite Hx, Hy. reflexivity. }
    split; [exact Hserve|].
    intros Hnone. rewrite Hserve.
    unfold Server.getEmployeeById, sql_select_employee.
    rewrite find_none_all_false; [reflexivity|].
    intros e _. unfold id_is. now rewrite Hnone.
  - destruct (String.eqb (fold_case "employees") (fold_case x));
      [|contradiction].
    destruct (String.eqb (fold_case "search") (fold_case y)); contradiction.
Qed.

(** ** What the search finds *)

Lemma search_finds (st : store) (query : object) (e : employee) :
  Z.of_nat (String.length ("%" ++ template (prop query "name") ++ "%"))
  <= SQLITE_MAX_LIKE_PATTERN_LENGTH ->
  In e (employees st) ->
  text_like (emp_name e) ("%" ++ template (prop query "name") ++ "%") = true ->
  In e (result_set (snd (Server.searchEmployeesByName st query))).
Proof.
  intros Hfit He Hlike. rewrite search_rows. cbv zeta.
  rewrite like_too_complex_false by now right.
  assert (Hin : In e (sql_select_name_like
                        ("%" ++ template (prop query "name") ++ "%") st)).
  { unfold sql_select_name_like. apply filter_In. now split. }
  destruct (sql_select_name_like _ st); [destruct Hin|exact Hin].
Qed.

(** X18.  While the pattern built from the name is within SQLite's limit
    for LIKE, every row the module's search by equality returns is among
    the rows the handler's search returns for the same name: the two differ
    only by what the handler adds. *)
Theorem exact_results_in_like_results (st : store) (query : object) :
  Z.of_nat (String.length ("%" ++ template (prop query "name") ++ "%"))
  <= SQLITE_MAX_LIKE_PATTERN_LENGTH ->
  incl (DataAccess.searchEmployeesByName st (prop query "name"))
       (result_set (snd (Server.searchEmployeesByName st query))).
Proof.
  intros Hfit e He.
  unfold DataAccess.searchEmployeesByName, sql_select_name_eq in He.
  apply filter_In in He. destruct He as [Hin Heq].
  apply search_finds; [exact Hfit|exact Hin|].
  destruct (emp_name e) as [n|]; [|discriminate].
  simpl in Heq. apply String.eqb_eq in Heq. subst n. simpl.
  apply like_self.
Qed.

(** X19.  The search does not see the case of ASCII letters: while the
    pattern is within SQLite's limit for LIKE, a query without NUL finds
    every employee whose name holds the query, in any letter case, from the
    start of a character on and before any NUL of the name. *)
Theorem search_ignores_case (st : store) (e : employee)
        (q q' pre post : string) :
  In e (employees st) ->
  emp_name e = Some (pre ++ q' ++ post) ->
  fold_case q = fold_case q' ->
  nul_free q = true -> nul_free pre = true -> nul_free q' = true ->
  char_start (q' ++ post) = true ->
  Z.of_nat (String.length ("%" ++ q ++ "%")) <=
    SQLITE_MAX_LIKE_PATTERN_LENGTH ->
  In e (result_set (snd (Server.searchEmployeesByName st [("name", JStr q)]))).
Proof.
  intros He Hn Hq Hnq Hnpre Hnq' Hstart Hfit.
  apply search_finds; [exact Hfit|exact He|].
  rewrite Hn. change (template (prop [("name", JStr q)] "name")) with q.
  simpl text_like. now apply like_substring.
Qed.

(** ** The data-access module against the handlers *)

Section Module.

Variable rowid_of_text : string -> option Z.

(** X20.  The module's [assignRoleToEmployee(id, role)] binds its arguments in
    the wrong order.  When [role] does not read as a rowid it changes no
    row, whether or not [id] names one; when [role] does name a row, that
    row gets the text of [id] as its role. *)
Theorem module_assign_role_swapped (st : store) (id role : string) :
  (rowid_of_text role = None ->
   DataAccess.assignRoleToEmployee rowid_of_text st (JStr id) (JStr role) =
     (0%nat, st)) /\
  (present rowid_of_text role st ->
   exists e,
     In e (employees st) /\ rowid_of_text role = Some (emp_id e) /\
     sql_select_employee rowid_of_text role
       (snd (DataAccess.assignRoleToEmployee rowid_of_text st
               (JStr id) (JStr role))) =
       Some (mkEmployee (emp_id e) (emp_name e) (Some id) (emp_status e))).
Proof.
  unfold DataAccess.assignRoleToEmployee, sql_update_role. simpl bind.
  split.
  - intros Hnone.
    assert (Hf : find (id_is rowid_of_text role) (employees st) = None).
    { apply find_none_all_false. intros e _. unfold id_is.
      now rewrite Hnone. }
    unfold changes.
    now rewrite (filter_none _ _ Hf), (map_if_none _ _ _ Hf), store_eta.
  - intros H.
    destruct (present_find _ _ _ H) as [e [He [Hin Hk]]].
    exists e. split; [exact Hin|]. split; [exact Hk|].
    unfold sql_select_employee. simpl.
    apply (find_map_if (id_is rowid_of_text role)
             (fun e => mkEmployee (emp_id e) (emp_name e) (Some id)
                                  (emp_status e))); [|exact He].
    intros y Hy. exact Hy.
Qed.

(** X21.  The module's [createEmployee] checks nothing: below the largest rowid
    it inserts a row for any arguments, NULL for the missing ones, and
    [getEmployeeById] then returns that row. *)
Theorem module_create_unchecked (st : store) (name role status : jsval)
        (id : string) :
  Z.max (max_rowid (employees st)) (sequence st) < MAX_ROWID ->
  exists k row st',
    k = Z.max (max_rowid (employees st)) (sequence st) + 1 /\
    row = mkEmployee k (bind name) (bind role) (bind status) /\
    DataAccess.createEmployee st name role status = Some (k, st') /\
    employees st' = (employees st ++ [row])%list /\
    (rowid_of_text id = Some k ->
     DataAccess.getEmployeeById rowid_of_text st' (JStr id) = Some row).
Proof.
  intros Hmax. eexists _, _, _.
  split; [reflexivity|]. split; [reflexivity|].
  unfold DataAccess.createEmployee, sql_insert_employee.
  destruct (MAX_ROWID <=? _) eqn:Hle; [apply Z.leb_le in Hle; lia|].
  split; [reflexivity|]. split; [reflexivity|].
  intros Hid. unfold DataAccess.getEmployeeById, sql_select_employee. simpl.
  apply find_snoc_fresh.
  - intros y Hy. apply id_is_false. rewrite Hid. intros [= Hk].
    pose proof (max_rowid_ge _ _ Hy). lia.
  - apply id_is_true. exact Hid.
Qed.

End Module.

(** ** The further properties at concrete stores *)

Lemma ana_sorted : StronglySorted Z.lt (map emp_id (employees ana_store)).
Proof. repeat constructor. Defined.

Lemma create_then_get_witness :
  exists k row st',
    k = Z.max (max_rowid (employees ana_store)) (sequence ana_store) + 1 /\
    row = mkEmployee k (Some "Bo") (Some "eng") (Some "active") /\
    Server.createEmployee ana_store (employee_body "Bo" "eng" "active") =
      (st', status_json 201
              (Created (js_number k) (JStr "Bo") (JStr "eng")
                       (JStr "active"))) /\
    (k <= EXACT_LIMIT -> js_number k = k) /\
    employees st' = (employees ana_store ++ [row])%list /\
    roles st' = roles ana_store /\
    sequence st' = k /\
    (decimal_rowid "2" = Some k ->
     Server.getEmployeeById decimal_rowid st' "2" = (st', send_json (Row row))).
Proof.
  apply (create_then_get decimal_rowid ana_store
           (employee_body "Bo" "eng" "active") "2");
    reflexivity.
Defined.

Lemma create_exhausted_witness :
  Server.createEmployee full_store (employee_body "Bo" "eng" "active") =
    (full_store, status_json 500 (Error "Failed to create employee.")).
Proof.
  destruct (create_exhausted full_store (employee_body "Bo" "eng" "active"))
    as [Hiff Hsame].
  apply Hsame, Hiff.
  split; [reflexivity|]. split; [reflexivity|]. split; [reflexivity|].
  vm_compute. discriminate.
Defined.

Lemma get_present_witness :
  Server.getEmployeeById decimal_rowid ana_store "1" =
    (ana_store, send_json (Row ana)) /\
  changes decimal_rowid "1" ana_store = 1%nat.
Proof.
  apply (get_present decimal_rowid ana_store "1" ana ana_sorted);
    [now left|reflexivity].
Defined.

Lemma delete_then_get_witness :
  exists st',
    Server.deleteEmployee decimal_rowid ana_store "1" =
      (st', send_json (Message "Employee deleted successfully.")) /\
    (forall e, In e (employees st') <->
               In e (employees ana_store) /\
               decimal_rowid "1" <> Some (emp_id e)) /\
    sequence st' = sequence ana_store /\
    roles st' = roles ana_store /\
    absent decimal_rowid "1" st' /\
    Server.getEmployeeById decimal_rowid st' "1" = (st', not_found) /\
    Server.deleteEmployee decimal_rowid st' "1" = (st', not_found).
Proof. exact (delete_then_get decimal_rowid ana_store "1" ana_present). Defined.

Lemma assign_role_sets_role_witness :
  exists st',
    Server.assignRoleToEmployee decimal_rowid ana_store "1"
                                [("role", JStr "ops")] =
      (st', send_json (Message "Role assigned successfully.")) /\
    (exists e, In e (employees ana_store) /\
               decimal_rowid "1" = Some (emp_id e) /\
               sql_select_employee decimal_rowid "1" st' =
                 Some (mkEmployee (emp_id e) (emp_name e)
                                  (bind (prop [("role", JStr "ops")] "role"))
                                  (emp_status e))) /\
    (forall e, decimal_rowid "1" <> Some (emp_id e) ->
               (In e (employees st') <-> In e (employees ana_store))) /\
    List.length (employees st') = List.length (employees ana_store) /\
    sequence st' = sequence ana_store /\
    roles st' = roles ana_store.
Proof.
  exact (assign_role_sets_role decimal_rowid ana_store "1"
           [("role", JStr "ops")] ana_present).
Defined.

Lemma update_status_sets_status_witness :
  exists st',
    Server.updateEmployeeStatus decimal_rowid ana_store "1" [] =
      (st', send_json (Message "Employee status updated successfully.")) /\
    (exists e, In e (employees ana_store) /\
               decimal_rowid "1" = Some (emp_id e) /\
               sql_select_employee decimal_rowid "1" st' =
                 Some (mkEmployee (emp_id e) (emp_name e) (emp_role e)
                                  (bind (prop [] "status")))) /\
    (forall e, decimal_rowid "1" <> Some (emp_id e) ->
               (In e (employees st') <-> In e (employees ana_store))) /\
    List.length (employees st') = List.length (employees ana_store) /\
    sequence st' = sequence ana_store /\
    roles st' = roles ana_store.
Proof.
  exact (update_status_sets_status decimal_rowid ana_store "1" []
           ana_present).
Defined.

Lemma update_keeps_others_witness :
  let st' := fst (Server.updateEmployee decimal_rowid nameless_store "2"
                    (employee_body "Bob" "ops" "away")) in
  (forall e, decimal_rowid "2" <> Some (emp_id e) ->
             (In e (employees st') <-> In e (employees nameless_store))) /\
  List.length (employees st') = List.length (employees nameless_store) /\
  sequence st' = sequence nameless_store /\
  roles st' = roles nameless_store.
Proof.
  apply (update_keeps_others decimal_rowid nameless_store "2"
           (employee_body "Bob" "ops" "away")).
  exists bo. split; [right; now left|reflexivity].
Defined.

Lemma details_of_known_role_witness :
  Server.getEmployeeDetails decimal_rowid eng_store "1" =
    (eng_store, send_json (Details ana (Some "eng"))).
Proof.
  apply (details_of_known_role decimal_rowid eng_store "1" ana "eng");
    [repeat constructor|now left|reflexivity|reflexivity|now left].
Defined.

Lemma create_role_cases_witness :
  Server.createRole eng_store [] =
    (eng_store, status_json 400 (Error "Missing role name.")) /\
  Server.createRole eng_store [("name", JStr "eng")] =
    (eng_store, status_json 500 (Error "Failed to create role.")) /\
  Server.createRole eng_store [("name", JStr "ops")] =
    (mkStore [ana] [Some "eng"; Some "ops"] 1,
     status_json 201 (RoleCreated (JStr "ops"))).
Proof.
  split; [|split].
  - apply (proj1 (create_role_cases eng_store [])). reflexivity.
  - apply (proj1 (proj2 (create_role_cases eng_store [("name", JStr "eng")]))
             "eng"); [reflexivity|discriminate|now left].
  - apply (proj2 (proj2 (create_role_cases eng_store [("name", JStr "ops")]))
             "ops"); [reflexivity|discriminate|].
    intros [H|[]]. discriminate.
Defined.

Lemma delete_role_cases_witness :
  Server.deleteRole eng_store "ops" =
    (eng_store, status_json 404 (Error "Role not found.")) /\
  exists st',
    Server.deleteRole eng_store "eng" =
      (st', send_json (Message "Role deleted successfully.")) /\
    (forall r, In r (roles st') <-> In r (roles eng_store) /\ r <> Some "eng") /\
    Server.deleteRole st' "eng" =
      (st', status_json 404 (Error "Role not found.")).
Proof.
  split.
  - apply (proj1 (delete_role_cases eng_store "ops")).
    intros [H|[]]. discriminate.
  - apply (proj2 (delete_role_cases eng_store "eng")). now left.
Defined.

Lemma error_changes_nothing_witness :
  fst (serve decimal_rowid ana_store
             (put_employee "7" (employee_body "Bob" "ops" "away"))) =
    ana_store.
Proof.
  apply error_changes_nothing. vm_compute. discriminate.
Defined.

Lemma get_changes_nothing_witness :
  fst (serve decimal_rowid ana_store (get_employee "1")) = ana_store.
Proof. apply get_changes_nothing. reflexivity. Defined.

Lemma total_employees_counts_witness :
  List.length
    (employees (fst (Server.createEmployee
                       ana_store (employee_body "Bo" "eng" "active")))) =
    2%nat /\
  S (List.length
       (employees (fst (Server.deleteEmployee decimal_rowid ana_store "1")))) =
    1%nat.
Proof.
  destruct (total_employees_counts decimal_rowid ana_store)
    as [_ [Hcreate Hdelete]].
  split.
  - apply (Hcreate (employee_body "Bo" "eng" "active")). reflexivity.
  - apply (Hdelete "1" ana_sorted). reflexivity.
Defined.

Lemma total_roles_counts_witness :
  List.length
    (roles (fst (Server.createRole eng_store [("name", JStr "ops")]))) =
    2%nat /\
  S (List.length (roles (fst (Server.deleteRole eng_store "eng")))) = 1%nat.
Proof.
  destruct (total_roles_counts eng_store) as [_ [Hcreate Hdelete]].
  split.
  - apply (Hcreate [("name", JStr "ops")]). reflexivity.
  - apply (Hdelete "eng"); [repeat constructor; intros []|reflexivity].
Defined.

Lemma search_route_never_taken_witness :
  exists x id,
    req_path (get_search "An") = [x; id] /\
    serve decimal_rowid ana_store (get_search "An") =
      Server.getEmployeeById decimal_rowid ana_store id /\
    (decimal_rowid id = None ->
     serve decimal_rowid ana_store (get_search "An") =
       (ana_store, not_found)).
Proof.
  apply (search_route_never_taken decimal_rowid ana_store (get_search "An"));
    [reflexivity|discriminate].
Defined.

Lemma search_ignores_case_witness :
  In ana (result_set
            (snd (Server.searchEmployeesByName ana_store
                    [("name", JStr "aN")]))).
Proof.
  apply (search_ignores_case ana_store ana "aN" "An" "" "a");
    try reflexivity; [now left|vm_compute; discriminate].
Defined.

Lemma exact_results_in_like_results_witness :
  incl (DataAccess.searchEmployeesByName ana_store (JStr "Ana"))
       (result_set (snd (Server.searchEmployeesByName
                           ana_store [("name", JStr "Ana")]))).
Proof.
  apply (exact_results_in_like_results ana_store [("name", JStr "Ana")]).
  vm_compute. discriminate.
Defined.


Lemma created_ids_increase_witness :
  StronglySorted Z.lt
    (created_ids (snd (run decimal_rowid empty_store scenario))) /\
  Forall (fun k => sequence empty_store < k)
         (created_ids (snd (run decimal_rowid empty_store scenario))).
Proof.
  apply (proj1 (created_ids_increase decimal_rowid empty_store scenario)).
  vm_compute. discriminate.
Defined.

Lemma module_assign_role_swapped_witness :
  DataAccess.assignRoleToEmployee decimal_rowid ana_store
                                  (JStr "1") (JStr "ops") =
    (0%nat, ana_store) /\
  exists e,
    In e (employees ana_store) /\ decimal_rowid "1" = Some (emp_id e) /\
    sql_select_employee decimal_rowid "1"
      (snd (DataAccess.assignRoleToEmployee decimal_rowid ana_store
              (JStr "ops") (JStr "1"))) =
      Some (mkEmployee (emp_id e) (emp_name e) (Some "ops") (emp_status e)).
Proof.
  split.
  - apply (proj1 (module_assign_role_swapped decimal_rowid ana_store
                    "1" "ops")).
    reflexivity.
  - apply (proj2 (module_assign_role_swapped decimal_rowid ana_store
                    "ops" "1")).
    exact ana_present.
Defined.

Lemma module_create_unchecked_witness :
  exists k row st',
    k = Z.max (max_rowid (employees ana_store)) (sequence ana_store) + 1 /\
    row = mkEmployee k (Some "Bo") None None /\
    DataAccess.createEmployee ana_store (JStr "Bo") JUndefined JNull =
      Some (k, st') /\
    employees st' = (employees ana_store ++ [row])%list /\
    (decimal_rowid "2" = Some k ->
     DataAccess.getEmployeeById decimal_rowid st' (JStr "2") = Some row).
Proof.
  apply (module_create_unchecked decimal_rowid ana_store
           (JStr "Bo") JUndefined JNull "2").
  reflexivity.
Defined.
